(** * Trusted-computing scheduler filters of cinder, embedded in Rocq

    The development follows the two filter modules of the repository:

    - [cinder/scheduler/filters/trusted_filter.py]: the attestation client
      ([AttestationService]), the attestation cache
      ([ComputeAttestationCache]) and [TrustedFilter];
    - [cinder/scheduler/filters/asset_tag_filter.py]:
      [TrustAssertionFilter] with its SAML reader and tag evaluator.

    Python objects decoded from JSON are values of [json]; values built by
    [ast.literal_eval] are values of [literal]; dictionaries keyed by strings
    or by hashable scalars are [gmap]s; every method that can raise returns
    in an error monad; the cache object, the clock and the log of batch
    queries are threaded as explicit state. *)

From Stdlib Require Import ZArith String Ascii List Bool Lia.
From stdpp Require Import base option gmap strings list fin_maps.

Set Warnings "-register-all".

Local Open Scope Z_scope.
Local Open Scope string_scope.

(** ** Python values *)

(** What [jsonutils.loads] can return.  JSON [true]/[false] are Python
    booleans, numbers are integers here (floats are outside the model),
    objects list each key once. *)
Inductive json : Type :=
  | JNull
  | JBool (b : bool)
  | JNum (z : Z)
  | JStr (s : string)
  | JList (l : list json)
  | JObj (d : list (string * json)).

(** What [ast.literal_eval] can return: a dictionary is the list of its
    items, each key once. *)
Inductive literal : Type :=
  | LNone
  | LBool (b : bool)
  | LNum (z : Z)
  | LStr (s : string)
  | LList (l : list literal)
  | LTuple (l : list literal)
  | LDict (d : list (literal * literal)).

(** Hashable scalars, as they key a Python [dict]: [True] and [1] are the
    same key. *)
Inductive pykey : Type :=
  | KNone
  | KInt (z : Z)
  | KStr (s : string).

#[global] Instance pykey_eq_dec : EqDecision pykey.
Proof. solve_decision. Defined.

Definition pykey_enc (k : pykey) : unit + (Z + string) :=
  match k with
  | KNone => inl tt
  | KInt z => inr (inl z)
  | KStr s => inr (inr s)
  end.

Definition pykey_dec (x : unit + (Z + string)) : pykey :=
  match x with
  | inl _ => KNone
  | inr (inl z) => KInt z
  | inr (inr s) => KStr s
  end.

#[global] Instance pykey_countable : Countable pykey.
Proof.
  apply (inj_countable' pykey_enc pykey_dec).
  intros k. destruct k; reflexivity.
Defined.

(** Exceptions the modelled code can let escape. *)
Inductive exn : Type :=
  | AttributeError
  | KeyError
  | TypeError
  | NoSuchOptError.

Inductive res (A : Type) : Type :=
  | Ok (a : A)
  | Raise (e : exn).
Arguments Ok {A} a.
Arguments Raise {A} e.

(** [hash(x)]: lists and dictionaries are unhashable. *)
Definition hashable (v : json) : res pykey :=
  match v with
  | JNull => Ok KNone
  | JBool b => Ok (KInt (if b then 1 else 0))
  | JNum z => Ok (KInt z)
  | JStr s => Ok (KStr s)
  | JList _ | JObj _ => Raise TypeError
  end.

(** [s == v] for a string [s]. *)
Definition json_eq_str (s : string) (v : json) : bool :=
  match v with
  | JStr t => String.eqb s t
  | _ => false
  end.

Definition literal_eq_str (s : string) (v : literal) : bool :=
  match v with
  | LStr t => String.eqb s t
  | _ => false
  end.

(** [bool(v)]. *)
Definition truthy (v : json) : bool :=
  match v with
  | JNull => false
  | JBool b => b
  | JNum z => negb (z =? 0)%Z
  | JStr s => negb (String.eqb s "")
  | JList l => match l with [] => false | _ => true end
  | JObj d => match d with [] => false | _ => true end
  end.

Fixpoint dict_get {A : Type} (d : list (string * A)) (k : string) : option A :=
  match d with
  | [] => None
  | (k', v) :: rest => if String.eqb k' k then Some v else dict_get rest k
  end.

(** [v[k]] for a string [k]: only a dictionary can be indexed by a string. *)
Definition subscript (v : json) (k : string) : res json :=
  match v with
  | JObj d => match dict_get d k with
              | Some x => Ok x
              | None => Raise KeyError
              end
  | _ => Raise TypeError
  end.

Fixpoint chars (s : string) : list json :=
  match s with
  | EmptyString => []
  | String c rest => JStr (String c EmptyString) :: chars rest
  end.

(** [iter(v)]: what a [for] loop over [v] visits. *)
Definition iterate (v : json) : res (list json) :=
  match v with
  | JList l => Ok l
  | JObj d => Ok (map (fun kv => JStr (fst kv)) d)
  | JStr s => Ok (chars s)
  | JNull | JBool _ | JNum _ => Raise TypeError
  end.

(** ** Strings *)

(** Strings are byte strings.  [lower] is [str.lower()] on them: the letters
    A-Z become a-z and every other byte stays.  (On a [unicode] object, which
    lxml hands out for a text with non-ASCII characters, Python also lowers
    the non-ASCII letters; such texts are outside the model.) *)
Definition lower_ascii (c : ascii) : ascii :=
  let n := nat_of_ascii c in
  if ((65 <=? n) && (n <=? 90))%nat then ascii_of_nat (n + 32) else c.

Fixpoint lower (s : string) : string :=
  match s with
  | EmptyString => EmptyString
  | String c rest => String (lower_ascii c) (lower rest)
  end.

(** [s.split(sep)] for a one-character separator. *)
Fixpoint split (sep : ascii) (s : string) : list string :=
  match s with
  | EmptyString => [EmptyString]
  | String c rest =>
      if Ascii.eqb c sep then EmptyString :: split sep rest
      else match split sep rest with
           | h :: t => String c h :: t
           | [] => [String c EmptyString]
           end
  end.

(** [sub in s] for two strings. *)
Fixpoint contains_str (sub s : string) : bool :=
  String.prefix sub s ||
  match s with
  | EmptyString => false
  | String _ rest => contains_str sub rest
  end.

(** ** Collaborators outside the repository *)

(** Outcome of a timestamp parser: the source catches [ValueError] and
    nothing else. *)
Inductive parsed : Type :=
  | Parsed (t : Z)
  | ValueErr
  | OtherErr (e : exn).

(** One [AttributeStatement/Attribute] element of a SAML assertion:
    [attrib_Name] is [el.attrib['Name']] when present, [AttributeValue] is
    [el.find(AttributeValue)] when present, with its [.text]. *)
Record element : Type := Element {
  attrib_Name : option string;
  AttributeValue : option (option string)
}.

(** The library functions the filters call.  Times are naive UTC instants in
    microseconds since 1970-01-01T00:00:00.
    - [loads]: [jsonutils.loads] / [json.loads] on a text, [None] when it
      raises;
    - [isotime v]: [normalize_time (parse_isotime v)];
    - [strtime v]: [normalize_time (parse_strtime v fmt="%c")];
    - [literal_eval]: [ast.literal_eval] on a text, [None] when it raises;
    - [saml_attributes]: [etree.XML(text).findall(AttributeStatement/Attribute)],
      [None] when it raises. *)
Record extern : Type := Extern {
  loads : string -> option json;
  isotime : json -> parsed;
  strtime : json -> parsed;
  literal_eval : string -> option literal;
  saml_attributes : string -> option (list element)
}.

(** Outcome of one HTTP exchange with the attestation server:
    [TransportFailure] is the exchange raising what [_do_request] catches
    ([requests.exceptions.RequestException]; [socket.error], [IOError]). *)
Inductive http_result : Type :=
  | TransportFailure
  | HttpResponse (status_code : Z) (text : string).

(** First component of what [_do_request] returns. *)
Inductive status : Type :=
  | IOError
  | Code (c : Z).

Definition codes_OK : Z := 200.
Definition codes_CREATED : Z := 201.
Definition codes_ACCEPTED : Z := 202.
Definition codes_NO_CONTENT : Z := 204.

(** [status == OK]. *)
Definition status_is_OK (st : status) : bool :=
  match st with
  | Code c => (c =? codes_OK)%Z
  | IOError => false
  end.

Definition success_code (c : Z) : bool :=
  ((c =? codes_OK) || (c =? codes_CREATED) || (c =? codes_ACCEPTED) ||
   (c =? codes_NO_CONTENT))%Z.

(** The [trusted_computing] option group of [scheduler_config.py].
    [default_trust_level] is read by [TrustedFilter] but registered nowhere in
    the shown options: [None] stands for an option that is not registered.
    [attestation_auth_blob] has no default. *)
Record conf : Type := Conf {
  attestation_auth_blob : option string;
  attestation_auth_timeout : Z;
  create_blank_on_trusted : bool;
  default_asset_tags : string;
  default_trust_level : option string
}.

(** [datetime.timedelta(seconds=s)] in microseconds. *)
Definition timedelta_seconds (s : Z) : Z := s * 1000000.

(** ** trusted_filter.py *)

Module trusted_filter.

(** A cache entry: the dictionary [{'trust_lvl': ..., 'vtime': ...}]. *)
Record entry : Type := Entry {
  trust_lvl : json;
  vtime : Z
}.

(** What the cache runs against: the successive readings of [utcnow()] and
    the server's answer to the n-th batch query. *)
Record env : Type := Env {
  clock : nat -> Z;
  authority : nat -> list pykey -> http_result
}.

(** The cache object ([storage_nodes]) with the number of clock readings
    taken and the batch queries issued so far. *)
Record world : Type := World {
  storage_nodes : gmap pykey entry;
  clock_reads : nat;
  polls : list (list pykey)
}.

Definition M (A : Type) : Type := world -> res A * world.

Definition ret {A : Type} (a : A) : M A := fun w => (Ok a, w).

Definition raise {A : Type} (e : exn) : M A := fun w => (Raise e, w).

Definition bind {A B : Type} (m : M A) (k : A -> M B) : M B :=
  fun w => match m w with
           | (Ok a, w') => k a w'
           | (Raise e, w') => (Raise e, w')
           end.

#[global] Instance M_ret : MRet M := @ret.
#[global] Instance M_bind : MBind M := fun A B k m => bind m k.

Definition lift {A : Type} (r : res A) : M A := fun w => (r, w).

Definition get_nodes : M (gmap pykey entry) :=
  fun w => (Ok (storage_nodes w), w).

Definition set_node (host : pykey) (e : entry) : M unit :=
  fun w => (Ok tt, World (<[host := e]> (storage_nodes w)) (clock_reads w) (polls w)).

Fixpoint for_each {A : Type} (f : A -> M unit) (l : list A) : M unit :=
  match l with
  | [] => ret tt
  | x :: rest => bind (f x) (fun _ => for_each f rest)
  end.

Section Model.

Variable X : extern.
Variable CONF : conf.
Variable E : env.

(** [timeutils.utcnow()]. *)
Definition utcnow : M Z :=
  fun w => (Ok (clock E (clock_reads w)),
            World (storage_nodes w) (S (clock_reads w)) (polls w)).

(** [timeutils.is_older_than(before, seconds)], which oslo.utils defines as
    [utcnow() - before > timedelta(seconds=seconds)]. *)
Definition is_older_than (before : Z) (seconds : Z) : M bool :=
  now ← utcnow;
  ret (timedelta_seconds seconds <? now - before)%Z.

(** [requests.request(...)]: one exchange with the server, logged. *)
Definition requests_request (hosts : list pykey) : M http_result :=
  fun w => (Ok (authority E (length (polls w)) hosts),
            World (storage_nodes w) (clock_reads w) (polls w ++ [hosts])).

(** [AttestationService._do_request] *)
Definition _do_request (hosts : list pykey) : M (status * json) :=
  r ← requests_request hosts;
  match r with
  | TransportFailure => ret (IOError, JNull)
  | HttpResponse status_code text =>
      if success_code status_code then
        match loads X text with
        | Some v => ret (Code codes_OK, v)
        | None => ret (Code codes_OK, JStr text)
        end
      else ret (Code status_code, JNull)
  end.

(** [AttestationService._request]: the host list goes out as the body, the
    outcome of [_do_request] comes back as it is. *)
Definition _request (hosts : list pykey) : M (status * json) :=
  _do_request hosts.

(** [AttestationService.do_attestation] *)
Definition do_attestation (hosts : list pykey) : M json :=
  sd ← _request hosts;
  match snd sd with
  | JNull => ret JNull
  | JObj d => ret (default JNull (dict_get d "hosts"))
  | _ => raise AttributeError
  end.

Definition epoch : Z := 0.

(** The entry [_init_cache_entry] stores. *)
Definition init_entry : entry := Entry (JStr "unknown") epoch.

(** [list(d.keys())] *)
Definition dict_keys (d : gmap pykey entry) : list pykey :=
  (map_to_list d).*1.

(** [ComputeAttestationCache._cache_valid] *)
Definition _cache_valid (host : pykey) : M bool :=
  nodes ← get_nodes;
  match nodes !! host with
  | Some node_stats =>
      older ← is_older_than (vtime node_stats) (attestation_auth_timeout CONF);
      ret (negb older)
  | None => ret false
  end.

(** [ComputeAttestationCache._init_cache_entry] *)
Definition _init_cache_entry (host : pykey) : M unit :=
  set_node host init_entry.

(** [ComputeAttestationCache._invalidate_caches] *)
Definition _invalidate_caches : M unit :=
  nodes ← get_nodes;
  for_each _init_cache_entry (dict_keys nodes).

(** [ComputeAttestationCache._update_cache_entry] *)
Definition _update_cache_entry (state : json) : M unit :=
  host ← lift (subscript state "host_name");
  lvl ← lift (subscript state "trust_lvl");
  raw ← lift (subscript state "vtime");
  entry ← match isotime X raw with
          | Parsed t => ret (Entry lvl t)
          | OtherErr e => raise e
          | ValueErr =>
              match strtime X raw with
              | Parsed t => ret (Entry lvl t)
              | OtherErr e => raise e
              | ValueErr =>
                  now ← utcnow;
                  ret (Entry (JStr "unknown") now)
              end
          end;
  key ← lift (hashable host);
  set_node key entry.

(** [ComputeAttestationCache._update_cache] *)
Definition _update_cache : M unit :=
  _invalidate_caches;;
  nodes ← get_nodes;
  states ← do_attestation (dict_keys nodes);
  match states with
  | JNull => ret tt
  | _ =>
      items ← lift (iterate states);
      for_each _update_cache_entry items
  end.

(** [ComputeAttestationCache.get_host_attestation] *)
Definition get_host_attestation (host : pykey) : M json :=
  nodes ← get_nodes;
  (if decide (is_Some (nodes !! host)) then ret tt
   else _init_cache_entry host);;
  valid ← _cache_valid host;
  (if (valid : bool) then ret tt else _update_cache);;
  nodes ← get_nodes;
  match nodes !! host with
  | Some node => ret (trust_lvl node)
  | None => raise AttributeError
  end.

(** [ComputeAttestation.is_trusted] *)
Definition is_trusted (host : pykey) (trust : string) : M bool :=
  level ← get_host_attestation host;
  ret (json_eq_str trust level).

(** [TrustedFilter.backend_passes]: [host] is [host_state.host], [metadata]
    is [filter_properties["metadata"]]. *)
Definition backend_passes (host : string) (metadata : gmap string string)
    : M bool :=
  let hostname := hd EmptyString (split "@" host) in
  match metadata !! "trust:trusted_host" with
  | Some trust => is_trusted (KStr hostname) trust
  | None =>
      match default_trust_level CONF with
      | Some trust => is_trusted (KStr hostname) trust
      | None => raise NoSuchOptError
      end
  end.

End Model.

(** *** Vocabulary of the statements below *)

(** What [do_attestation] makes of one exchange. *)
Definition answer (X : extern) (r : http_result) : res json :=
  match r with
  | TransportFailure => Ok JNull
  | HttpResponse status_code text =>
      if success_code status_code then
        match loads X text with
        | Some JNull => Ok JNull
        | Some (JObj d) => Ok (default JNull (dict_get d "hosts"))
        | Some _ => Raise AttributeError
        | None => Raise AttributeError
        end
      else Ok JNull
  end.

(** Every tracked entry back to [unknown] at the epoch. *)
Definition reset (d : gmap pykey entry) : gmap pykey entry :=
  (fun _ => init_entry) <$> d.

(** The per-host tuple [state] is about host [h]. *)
Definition names (h : pykey) (state : json) : bool :=
  match subscript state "host_name" with
  | Ok v => match hashable v with
            | Ok k => bool_decide (k = h)
            | Raise _ => false
            end
  | Raise _ => false
  end.


(** The world after one more clock reading. *)
Definition tick (w : world) : world :=
  World (storage_nodes w) (S (clock_reads w)) (polls w).

End trusted_filter.

(** ** asset_tag_filter.py *)

Module asset_tag_filter.

(** [filter_properties['request_spec']], as far as the filter reads it. *)
Record request_spec : Type := RequestSpec {
  image_id : option string;
  snapshot_id : option string
}.

Section Model.

Variable X : extern.
Variable CONF : conf.

(** The server's answer to the GET for a host name. *)
Variable server : string -> http_result.

(** [AttestationService._do_request] *)
Definition _do_request (hostname : string) : status * option string :=
  match server hostname with
  | TransportFailure => (IOError, None)
  | HttpResponse status_code data =>
      if success_code status_code then (Code codes_OK, Some data)
      else (Code status_code, None)
  end.

(** [AttestationService._request]: [base64.encodestring(self.auth_blob)]
    raises [TypeError] on an unset blob, before the request is built. *)
Definition _request (hostname : string) : res (status * option string) :=
  match attestation_auth_blob CONF with
  | None => Raise TypeError
  | Some _ =>
      let sd := _do_request hostname in
      if status_is_OK (fst sd) then Ok sd else Ok (fst sd, None)
  end.

(** [AttestationService.do_attestation] *)
Definition do_attestation (hostname : string) : res (option string) :=
  match _request hostname with
  | Ok sd => Ok (snd sd)
  | Raise e => Raise e
  end.

(** The loop of [verify_and_parse_saml] over the attribute elements; an
    exception inside it returns what has been read so far. *)
Fixpoint read_attributes (elements : list element) (trust : bool)
    (asset_tag : gmap string string) : bool * gmap string string :=
  match elements with
  | [] => (trust, asset_tag)
  | el :: rest =>
      match attrib_Name el with
      | None => (trust, asset_tag)
      | Some name =>
          if String.eqb (lower name) "trusted" then
            match AttributeValue el with
            | None => (trust, asset_tag)
            | Some text =>
                match text with
                | Some "true" => read_attributes rest true asset_tag
                | _ => read_attributes rest trust asset_tag
                end
            end
          else if String.prefix "tag" (lower name) then
            match AttributeValue el with
            | Some (Some text) =>
                match split "[" (lower name) with
                | _ :: inner :: _ =>
                    let key := lower (hd EmptyString (split "]" inner)) in
                    read_attributes rest trust (<[key := lower text]> asset_tag)
                | _ => (trust, asset_tag)
                end
            | _ => (trust, asset_tag)
            end
          else read_attributes rest trust asset_tag
      end
  end.

(** [TrustAssertionFilter.verify_and_parse_saml] *)
Definition verify_and_parse_saml (saml_data : option string)
    : bool * gmap string string :=
  let trust := false in
  let asset_tag : gmap string string := ∅ in
  match saml_data with
  | None => (trust, asset_tag)
  | Some text =>
      if match loads X text with Some v => truthy v | None => false end
      then (trust, asset_tag)
      else match saml_attributes X text with
           | Some elements => read_attributes elements trust asset_tag
           | None => (trust, asset_tag)
           end
  end.

(** [value in accepted]: [None] when [accepted] supports no membership
    test ([TypeError]). *)
Definition contains (value : string) (accepted : literal) : option bool :=
  match accepted with
  | LList l | LTuple l => Some (existsb (literal_eq_str value) l)
  | LStr s => Some (contains_str value s)
  | LDict d => Some (existsb (literal_eq_str value) (map fst d))
  | LNone | LBool _ | LNum _ => None
  end.

(** [host_tags[tag]] when [tag in host_tags.keys()]. *)
Definition host_tag (host_tags : gmap string string) (tag : literal)
    : option string :=
  match tag with
  | LStr k => host_tags !! k
  | _ => None
  end.

(** The loop of [verify_asset_tag] over the selection's items; [None] is
    an exception raised inside it. *)
Fixpoint check_tags (host_tags : gmap string string)
    (sel_tags : list (literal * literal)) (iteration_status : bool)
    : option bool :=
  match sel_tags with
  | [] => Some iteration_status
  | (tag, accepted) :: rest =>
      match host_tag host_tags tag with
      | None => check_tags host_tags rest false
      | Some value =>
          match contains value accepted with
          | None => None
          | Some true => check_tags host_tags rest iteration_status
          | Some false => check_tags host_tags rest false
          end
      end
  end.

(** [TrustAssertionFilter.verify_asset_tag] *)
Definition verify_asset_tag (host_tags : gmap string string)
    (tag_selections : string) : bool :=
  match literal_eval X (lower tag_selections) with
  | Some (LDict sel_tags) =>
      match check_tags host_tags sel_tags true with
      | Some true => true
      | _ => false
      end
  | _ => false
  end.

(** [TrustAssertionFilter.backend_passes]: [host] is [backend_state.host];
    the second component is the caller's [metadata] mapping as the call
    leaves it.  Metadata values and [default_asset_tags] are strings, for
    which the tests [!= None] and [!= {}] on [tag_selections] always hold and
    leave the test against the text [None]. *)
Definition backend_passes (host : string) (spec : request_spec)
    (metadata : gmap string string) : res bool * gmap string string :=
  let is_blank_volume :=
    bool_decide (image_id spec = None) && bool_decide (snapshot_id spec = None) in
  let metadata :=
    if bool_decide (metadata = ∅) && is_blank_volume
       && create_blank_on_trusted CONF
    then <["asset_tags" := default_asset_tags CONF]>
           (<["trust" := "trusted"]> metadata)
    else metadata in
  let trust_verify := bool_decide (is_Some (metadata !! "trust")) in
  if trust_verify then
    let tag_selections := default "None" (metadata !! "asset_tags") in
    let verify_trust_status := true in
    let verify_asset_tag_flag := negb (String.eqb tag_selections "None") in
    let hostname := hd EmptyString (split "@" host) in
    match do_attestation hostname with
    | Raise e => (Raise e, metadata)
    | Ok host_data =>
        let (trust, asset_tag) := verify_and_parse_saml host_data in
        if negb trust then (Ok false, metadata)
        else if verify_asset_tag_flag
             then (Ok (verify_asset_tag asset_tag tag_selections), metadata)
             else (Ok true, metadata)
    end
  else (Ok true, metadata).

(** [TrustAssertionFilter.is_trusted] *)
Definition is_trusted (hostname : string) (tags : option string) : bool :=
  match do_attestation hostname with
  | Raise _ => false
  | Ok host_data =>
      let (trust, asset_tag) := verify_and_parse_saml host_data in
      if negb trust then false
      else match tags with
           | Some t =>
               if negb (String.eqb t "None") then verify_asset_tag asset_tag t
               else true
           | None => true
           end
  end.

End Model.

(** *** Vocabulary of the statements below *)

(** The accepted-value set of a selection item, when it is a list or a
    tuple of values. *)
Definition accepted_values (accepted : literal) : option (list literal) :=
  match accepted with
  | LList l | LTuple l => Some l
  | _ => None
  end.

(** A selection mapping each of whose items carries a set of values. *)
Definition well_formed (sel_tags : list (literal * literal)) : Prop :=
  Forall (fun item => is_Some (accepted_values (snd item))) sel_tags.

(** One item as the loop of [verify_asset_tag] judges it. *)
Definition item_ok (host_tags : gmap string string)
    (item : literal * literal) : bool :=
  match host_tag host_tags (fst item) with
  | Some value => match contains value (snd item) with
                  | Some true => true
                  | _ => false
                  end
  | None => false
  end.


(** The request is for a blank volume and blank volumes are sent to trusted
    hosts. *)
Definition blank_on_trusted (CONF : conf) (spec : request_spec) : Prop :=
  image_id spec = None ∧ snapshot_id spec = None ∧
  create_blank_on_trusted CONF = true.

(** The requirement [backend_passes] synthesizes. *)
Definition synthesized (CONF : conf) : gmap string string :=
  <["asset_tags" := default_asset_tags CONF]> (<["trust" := "trusted"]> ∅).

End asset_tag_filter.

(** ** Sample collaborators

    The library functions on the texts the examples below use; any other
    text is one they reject. *)

Definition dq : string := String (ascii_of_nat 34) EmptyString.

Definition q (s : string) : string := dq ++ s ++ dq.

(** A batch answer naming [h1] as trusted with an ISO-8601 time. *)
Definition body_h1 : string :=
  "{" ++ q "hosts" ++ ": [{" ++ q "host_name" ++ ": " ++ q "h1" ++ ", "
      ++ q "trust_lvl" ++ ": " ++ q "trusted" ++ ", "
      ++ q "vtime" ++ ": " ++ q "1970-01-01T00:01:00Z" ++ "}]}".

Definition state_h1 : json :=
  JObj [("host_name", JStr "h1"); ("trust_lvl", JStr "trusted");
        ("vtime", JStr "1970-01-01T00:01:00Z")].

(** A batch answer whose tuple for [h1] has no [vtime] field. *)
Definition body_no_vtime : string :=
  "{" ++ q "hosts" ++ ": [{" ++ q "host_name" ++ ": " ++ q "h1" ++ ", "
      ++ q "trust_lvl" ++ ": " ++ q "trusted" ++ "}]}".

(** A signed assertion with [Trusted = true] and [TAG[Env] = Prod]; its
    elements are in the SAML 2.0 assertion namespace, where the paths of
    [verify_and_parse_saml] look for them. *)
Definition saml_h1 : string :=
  "<Assertion xmlns=" ++ q "urn:oasis:names:tc:SAML:2.0:assertion"
    ++ "><AttributeStatement><Attribute Name=" ++ q "Trusted"
    ++ "><AttributeValue>true</AttributeValue></Attribute><Attribute Name="
    ++ q "TAG[Env]"
    ++ "><AttributeValue>Prod</AttributeValue></Attribute>"
    ++ "</AttributeStatement></Assertion>".

Definition sample_loads (text : string) : option json :=
  if String.eqb text body_h1 then Some (JObj [("hosts", JList [state_h1])])
  else if String.eqb text body_no_vtime
  then Some (JObj [("hosts", JList [JObj [("host_name", JStr "h1");
                                          ("trust_lvl", JStr "trusted")]])])
  else if String.eqb text "null" then Some JNull
  else if String.eqb text "[]" then Some (JList [])
  else None.

Definition sample_isotime (v : json) : parsed :=
  match v with
  | JStr "1970-01-01T00:01:00Z" => Parsed 60000000
  | _ => ValueErr
  end.

Definition sample_strtime (v : json) : parsed :=
  match v with
  | JStr "Thu Jan  1 00:02:00 1970" => Parsed 120000000
  | JStr _ => ValueErr
  | _ => OtherErr TypeError
  end.

Definition sample_literal_eval (text : string) : option literal :=
  if String.eqb text "{'env': ['prod']}"
  then Some (LDict [(LStr "env", LList [LStr "prod"])])
  else if String.eqb text "{}" then Some (LDict [])
  else if String.eqb text "['prod']" then Some (LList [LStr "prod"])
  else None.

Definition sample_saml_attributes (text : string) : option (list element) :=
  if String.eqb text saml_h1
  then Some [Element (Some "Trusted") (Some (Some "true"));
             Element (Some "TAG[Env]") (Some (Some "Prod"))]
  else None.

Definition sample_extern : extern :=
  Extern sample_loads sample_isotime sample_strtime sample_literal_eval
         sample_saml_attributes.

Definition sample_conf : conf :=
  Conf (Some "blob") 60 true "None" (Some "trusted").

(** A tuple for [h1] whose timestamp no parser accepts. *)
Definition state_h1_bad_time : json :=
  JObj [("host_name", JStr "h1"); ("trust_lvl", JStr "trusted");
        ("vtime", JStr "yesterday")].

(** A server that cannot be reached, every clock reading being [now]. *)
Definition unreachable (now : Z) : trusted_filter.env :=
  trusted_filter.Env (fun _ => now) (fun _ _ => TransportFailure).

(** A server that answers every query with [text] and status 200. *)
Definition answering (now : Z) (text : string) : trusted_filter.env :=
  trusted_filter.Env (fun _ => now) (fun _ _ => HttpResponse 200 text).

(** A cache that tracks nothing yet. *)
Definition fresh_cache : trusted_filter.world :=
  trusted_filter.World ∅ 0 [].

(** A cache whose only entry says [h1] was verified as trusted at [t]. *)
Definition cache_h1 (t : Z) : trusted_filter.world :=
  trusted_filter.World
    {[ KStr "h1" := trusted_filter.Entry (JStr "trusted") t ]} 0 [].

(** An attestation server out of reach of the trust assertion filter. *)
Definition no_server : string -> http_result := fun _ => TransportFailure.

(** An attestation server that answers with the assertion [saml_h1]. *)
Definition saml_server : string -> http_result :=
  fun _ => HttpResponse 200 saml_h1.

(** A request for a blank volume. *)
Definition blank_volume : asset_tag_filter.request_spec :=
  asset_tag_filter.RequestSpec None None.


(** ** Further code of the two modules *)

(** [x and y] and [x or y] on Python values. *)
Definition py_and (x y : json) : json := if truthy x then y else x.

Definition py_or (x y : json) : json := if truthy x then x else y.

(** The value of a [StrOpt]: [None] when it is unset. *)
Definition str_opt (o : option string) : json :=
  match o with
  | Some s => JStr s
  | None => JNull
  end.

(** [self.verify] as [AttestationService.__init__] of trusted_filter.py
    computes it:
    [not CONF...attestation_insecure_ssl and self.ca_file or True]. *)
Definition self_verify (attestation_insecure_ssl : bool)
    (attestation_server_ca_file : option string) : json :=
  py_or (py_and (JBool (negb attestation_insecure_ssl))
                (str_opt attestation_server_ca_file))
        (JBool true).

(** *** Vocabulary of the further statements *)

(** A per-host tuple that [_update_cache_entry] processes without raising:
    it has its three fields, a hashable host name, and timestamp parsers
    that answer or raise [ValueError]. *)
Definition well_formed_tuple (X : extern) (state : json) : Prop :=
  ∃ host lvl raw key,
    subscript state "host_name" = Ok host ∧
    subscript state "trust_lvl" = Ok lvl ∧
    subscript state "vtime" = Ok raw ∧
    hashable host = Ok key ∧
    (∀ e, isotime X raw ≠ OtherErr e) ∧
    (isotime X raw = ValueErr → ∀ e, strtime X raw ≠ OtherErr e).

(** An answer of [do_attestation] that a refresh processes without raising:
    no data, or an iterable of well-formed tuples. *)
Definition well_formed_answer (X : extern) (states : json) : Prop :=
  states = JNull ∨
  ∃ items, iterate states = Ok items ∧ Forall (well_formed_tuple X) items.

(** The cache once [get_host_attestation] has made sure [host] has an
    entry. *)
Definition ensure (host : pykey) (w : trusted_filter.world)
    : trusted_filter.world :=
  match trusted_filter.storage_nodes w !! host with
  | Some _ => w
  | None =>
      trusted_filter.World
        (<[host := trusted_filter.init_entry]> (trusted_filter.storage_nodes w))
        (trusted_filter.clock_reads w) (trusted_filter.polls w)
  end.

(** The next clock reading finds the entry of [host] (the epoch entry when
    [host] is not tracked yet) older than the configured timeout. *)
Definition needs_refresh (CONF : conf) (E : trusted_filter.env)
    (host : pykey) (w : trusted_filter.world) : Prop :=
  (timedelta_seconds (attestation_auth_timeout CONF)
   < trusted_filter.clock E (trusted_filter.clock_reads w)
     - match trusted_filter.storage_nodes w !! host with
       | Some e => trusted_filter.vtime e
       | None => trusted_filter.epoch
       end)%Z.

(** The character [c] occurs in [s]. *)
Fixpoint occurs (c : ascii) (s : string) : bool :=
  match s with
  | EmptyString => false
  | String c' rest => Ascii.eqb c' c || occurs c rest
  end.

(** The attribute element says [Trusted = true]: its name is [trusted] in
    any case, its value is the text [true]. *)
Definition says_trusted (el : element) : Prop :=
  (∃ name, attrib_Name el = Some name ∧ lower name = "trusted") ∧
  AttributeValue el = Some (Some "true").

(** The loop of [verify_and_parse_saml] gets past the element without an
    exception. *)
Definition readable (el : element) : bool :=
  match attrib_Name el with
  | None => false
  | Some name =>
      if String.eqb (lower name) "trusted" then
        match AttributeValue el with Some _ => true | None => false end
      else if String.prefix "tag" (lower name) then
        match AttributeValue el, split "[" (lower name) with
        | Some (Some _), _ :: _ :: _ => true
        | _, _ => false
        end
      else true
  end.

(** [sample_extern] with one more selection text, whose accepted value is
    a string. *)
Definition sample_extern_str : extern :=
  Extern sample_loads sample_isotime sample_strtime
         (fun text =>
            if String.eqb text "{'env': 'production'}"
            then Some (LDict [(LStr "env", LStr "production")])
            else sample_literal_eval text)
         sample_saml_attributes.

(** A configuration without [attestation_auth_blob]. *)
Definition conf_without_blob : conf :=
  Conf None 60 true "None" (Some "trusted").

(** A tuple for [h1] whose [vtime] is a number, and a batch answer with
    it. *)
Definition state_h1_num_time : json :=
  JObj [("host_name", JStr "h1"); ("trust_lvl", JStr "trusted");
        ("vtime", JNum 5)].

Definition body_num_vtime : string :=
  "{" ++ q "hosts" ++ ": [{" ++ q "host_name" ++ ": " ++ q "h1" ++ ", "
      ++ q "trust_lvl" ++ ": " ++ q "trusted" ++ ", "
      ++ q "vtime" ++ ": 5}]}".

(** [sample_extern] with [body_num_vtime] decoded as well. *)
Definition sample_extern_num : extern :=
  Extern (fun text =>
            if String.eqb text body_num_vtime
            then Some (JObj [("hosts", JList [state_h1_num_time])])
            else sample_loads text)
         sample_isotime sample_strtime sample_literal_eval
         sample_saml_attributes.

(** [sample_extern] with a selection text in upper case evaluated as
    written. *)
Definition sample_extern_case : extern :=
  Extern sample_loads sample_isotime sample_strtime
         (fun text =>
            if String.eqb text "{'ENV': ['PROD']}"
            then Some (LDict [(LStr "ENV", LList [LStr "PROD"])])
            else sample_literal_eval text)
         sample_saml_attributes.

(** The options [scheduler_config.py] registers, at their defaults: no auth
    blob, and no [default_trust_level] at all. *)
Definition registered_conf : conf :=
  Conf None 60 true "None" None.

(** The text has one of the letters A-Z. *)
Definition is_upper_ascii (c : ascii) : bool :=
  let n := nat_of_ascii c in ((65 <=? n) && (n <=? 90))%nat.

Fixpoint has_upper (s : string) : bool :=
  match s with
  | EmptyString => false
  | String c rest => is_upper_ascii c || has_upper rest
  end.

(** * Properties of the attestation cache *)

Section CacheFacts.

Import trusted_filter.

Context (X : extern) (CONF : conf) (E : env).

Ltac run := unfold mbind, M_bind, bind, ret, raise, lift, get_nodes, set_node.

Lemma world_eta (w : world) :
  World (storage_nodes w) (clock_reads w) (polls w) = w.
Proof. destruct w; reflexivity. Qed.

Lemma for_each_init (l : list pykey) (w : world) :
  for_each _init_cache_entry l w =
  (Ok tt, World (foldl (fun d h => <[h := init_entry]> d) (storage_nodes w) l)
                (clock_reads w) (polls w)).
Proof.
  revert w. induction l as [|h l IH]; intros w; simpl.
  - unfold ret. by rewrite world_eta.
  - unfold bind, _init_cache_entry, set_node. by rewrite IH.
Qed.

Lemma foldl_init_lookup (l : list pykey) (d : gmap pykey entry) (h : pykey) :
  foldl (fun d h => <[h := init_entry]> d) d l !! h =
  if decide (h ∈ l) then Some init_entry else d !! h.
Proof.
  revert d. induction l as [|k l IH]; intros d.
  - destruct (decide (h ∈ [])) as [Hin|_]; [by apply elem_of_nil in Hin | done].
  - change (foldl (fun d h => <[h := init_entry]> d) (<[k := init_entry]> d) l !! h
            = if decide (h ∈ k :: l) then Some init_entry else d !! h).
    rewrite IH. destruct (decide (h ∈ l)) as [Hl|Hl].
    + rewrite decide_True; [done | apply elem_of_cons; by right].
    + destruct (decide (k = h)) as [->|Hk].
      * rewrite decide_True; [by rewrite lookup_insert_eq | apply elem_of_cons; by left].
      * rewrite decide_False; [by rewrite lookup_insert_ne |].
        intros [->|?]%elem_of_cons; done.
Qed.

Lemma elem_of_dict_keys (d : gmap pykey entry) (h : pykey) :
  h ∈ dict_keys d ↔ is_Some (d !! h).
Proof.
  unfold dict_keys. rewrite list_elem_of_fmap. split.
  - intros [[k e] [-> Hin]]. apply elem_of_map_to_list in Hin. by exists e.
  - intros [e He]. exists (h, e). split; [done | by apply elem_of_map_to_list].
Qed.

Lemma invalidate_spec (w : world) :
  _invalidate_caches w =
  (Ok tt, World (reset (storage_nodes w)) (clock_reads w) (polls w)).
Proof.
  unfold _invalidate_caches. run. rewrite for_each_init. do 2 f_equal.
  apply map_eq. intros h. rewrite foldl_init_lookup. unfold reset.
  rewrite lookup_fmap. destruct (decide (h ∈ dict_keys (storage_nodes w))) as [Hin|Hin].
  - apply elem_of_dict_keys in Hin as [e ->]. done.
  - destruct (storage_nodes w !! h) as [e|] eqn:He; [|done].
    exfalso. apply Hin, elem_of_dict_keys. by exists e.
Qed.

Lemma do_attestation_spec (hosts : list pykey) (w : world) :
  do_attestation X E hosts w =
  (answer X (authority E (length (polls w)) hosts),
   World (storage_nodes w) (clock_reads w) (polls w ++ [hosts])%list).
Proof.
  unfold do_attestation, _request, _do_request, requests_request, answer.
  run. destruct (authority E (length (polls w)) hosts) as [|code text]; [done|].
  destruct (success_code code); [|done].
  destruct (loads X text) as [[]|]; done.
Qed.

Lemma cache_valid_spec (host : pykey) (w : world) :
  _cache_valid CONF E host w =
  match storage_nodes w !! host with
  | Some node_stats =>
      (Ok (negb (timedelta_seconds (attestation_auth_timeout CONF)
                 <? clock E (clock_reads w) - vtime node_stats)%Z), tick w)
  | None => (Ok false, w)
  end.
Proof.
  unfold _cache_valid, is_older_than, utcnow. run.
  destruct (storage_nodes w !! host); reflexivity.
Qed.

(** One per-host tuple touches the entry of the host it names, and nothing
    else; it issues no query. *)
Lemma update_cache_entry_frame (state : json) (w : world) :
  polls (snd (_update_cache_entry X E state w)) = polls w ∧
  (∀ h, names h state = false →
        storage_nodes (snd (_update_cache_entry X E state w)) !! h
        = storage_nodes w !! h) ∧
  (∀ h, is_Some (storage_nodes w !! h) →
        is_Some (storage_nodes (snd (_update_cache_entry X E state w)) !! h)).
Proof.
  unfold _update_cache_entry, names, utcnow. run.
  destruct (subscript state "host_name") as [host|]; [|done].
  destruct (subscript state "trust_lvl") as [lvl|]; [|done].
  destruct (subscript state "vtime") as [raw|]; [|done].
  assert (∀ (e : entry) (w0 : world),
    polls w0 = polls w → storage_nodes w0 = storage_nodes w →
    let w' := snd (match hashable host with
                   | Ok a => (Ok tt, World (<[a:=e]> (storage_nodes w0))
                                           (clock_reads w0) (polls w0))
                   | Raise e0 => (@Raise unit e0, w0)
                   end) in
    polls w' = polls w ∧
    (∀ h, match hashable host with
          | Ok k => bool_decide (k = h)
          | Raise _ => false
          end = false → storage_nodes w' !! h = storage_nodes w !! h) ∧
    (∀ h, is_Some (storage_nodes w !! h) → is_Some (storage_nodes w' !! h)))
    as Hset.
  { intros e w0 Hp Hs. destruct (hashable host) as [k|]; simpl.
    - split; [done|]. rewrite Hs. split.
      + intros h Hne. apply bool_decide_eq_false in Hne.
        by rewrite lookup_insert_ne.
      + intros h Hh. destruct (decide (k = h)) as [->|Hne].
        * rewrite lookup_insert_eq. by eexists.
        * by rewrite lookup_insert_ne.
    - rewrite Hs. done. }
  destruct (isotime X raw) as [t| |e]; [by apply Hset| |done].
  destruct (strtime X raw) as [t| |e]; [by apply Hset| |done].
  by apply Hset.
Qed.

Lemma for_each_update_frame (items : list json) (w : world) :
  polls (snd (for_each (_update_cache_entry X E) items w)) = polls w ∧
  (∀ h, Forall (fun state => names h state = false) items →
        storage_nodes (snd (for_each (_update_cache_entry X E) items w)) !! h
        = storage_nodes w !! h) ∧
  (∀ h, is_Some (storage_nodes w !! h) →
        is_Some (storage_nodes
                   (snd (for_each (_update_cache_entry X E) items w)) !! h)).
Proof.
  revert w. induction items as [|state items IH]; intros w; simpl.
  - done.
  - unfold bind.
    destruct (update_cache_entry_frame state w) as (Hp & Hs & Ht).
    destruct (_update_cache_entry X E state w) as [[[]|e] w1]; simpl in *.
    + destruct (IH w1) as (Hp1 & Hs1 & Ht1). split; [congruence|]. split.
      * intros h Hall. inversion Hall; subst. rewrite Hs1; auto.
      * intros h Hh. auto.
    + split; [done|]. split; [|done].
      intros h Hall. inversion Hall; subst. auto.
Qed.

(** The refresh as one equation: the reset table, the one batch query, then
    the tuples of the answer. *)
Lemma update_cache_unfold (w : world) :
  let hosts := dict_keys (reset (storage_nodes w)) in
  let w1 := World (reset (storage_nodes w)) (clock_reads w)
                  (polls w ++ [hosts])%list in
  _update_cache X E w =
  match answer X (authority E (length (polls w)) hosts) with
  | Raise e => (Raise e, w1)
  | Ok JNull => (Ok tt, w1)
  | Ok states =>
      match iterate states with
      | Ok items => for_each (_update_cache_entry X E) items w1
      | Raise e => (Raise e, w1)
      end
  end.
Proof.
  unfold _update_cache. run. rewrite invalidate_spec. simpl.
  rewrite do_attestation_spec. simpl.
  destruct (answer X _) as [[]|]; try reflexivity; simpl;
    match goal with |- context [iterate ?s] => destruct (iterate s) end;
    reflexivity.
Qed.

Lemma update_cache_polls (w : world) :
  polls (snd (_update_cache X E w))
  = (polls w ++ [dict_keys (reset (storage_nodes w))])%list.
Proof.
  rewrite update_cache_unfold.
  destruct (answer X _) as [states|]; [|done].
  assert (∀ w1 : world,
    polls (snd match iterate states with
               | Ok items => for_each (_update_cache_entry X E) items w1
               | Raise e => (Raise e, w1)
               end) = polls w1) as Hit.
  { intros w1. destruct (iterate states) as [items|]; [|done].
    apply for_each_update_frame. }
  destruct states; try apply Hit; done.
Qed.

Lemma update_cache_tracked (w : world) (h : pykey) :
  is_Some (storage_nodes w !! h) →
  is_Some (storage_nodes (snd (_update_cache X E w)) !! h).
Proof.
  intros Hh. rewrite update_cache_unfold.
  assert (is_Some (reset (storage_nodes w) !! h)) as Hr.
  { unfold reset. rewrite lookup_fmap. destruct Hh as [e ->]. by eexists. }
  destruct (answer X _) as [states|]; [|done].
  assert (∀ w1 : world, is_Some (storage_nodes w1 !! h) →
    is_Some (storage_nodes (snd match iterate states with
               | Ok items => for_each (_update_cache_entry X E) items w1
               | Raise e => (Raise e, w1)
               end) !! h)) as Hit.
  { intros w1 H1. destruct (iterate states) as [items|]; [|done].
    by apply for_each_update_frame. }
  destruct states; try (by apply Hit); done.
Qed.


Lemma dict_keys_reset (d : gmap pykey entry) :
  dict_keys (reset d) = dict_keys d.
Proof.
  unfold dict_keys, reset. rewrite map_to_list_fmap, <- list_fmap_compose.
  apply list_fmap_ext. by intros _ [k e] _.
Qed.

Lemma get_host_attestation_fresh (host : pykey) (w : world) (e : entry) :
  storage_nodes w !! host = Some e →
  (clock E (clock_reads w) - vtime e
   ≤ timedelta_seconds (attestation_auth_timeout CONF))%Z →
  get_host_attestation X CONF E host w = (Ok (trust_lvl e), tick w).
Proof.
  intros He Hage. unfold get_host_attestation. run. rewrite He.
  rewrite decide_True by (by eexists). rewrite cache_valid_spec, He.
  replace (_ <? _)%Z with false by (symmetry; apply Z.ltb_ge; lia).
  simpl. by rewrite He.
Qed.

Lemma get_host_attestation_stale (host : pykey) (w : world) (e : entry) :
  storage_nodes w !! host = Some e →
  (timedelta_seconds (attestation_auth_timeout CONF)
   < clock E (clock_reads w) - vtime e)%Z →
  get_host_attestation X CONF E host w =
  match _update_cache X E (tick w) with
  | (Ok _, w') =>
      match storage_nodes w' !! host with
      | Some node => (Ok (trust_lvl node), w')
      | None => (Raise AttributeError, w')
      end
  | (Raise err, w') => (Raise err, w')
  end.
Proof.
  intros He Hage. unfold get_host_attestation. run. rewrite He.
  rewrite decide_True by (by eexists). rewrite cache_valid_spec, He.
  replace (_ <? _)%Z with true by (symmetry; apply Z.ltb_lt; lia).
  simpl. destruct (_update_cache X E (tick w)) as [[[]|err] w']; [|done].
  by destruct (storage_nodes w' !! host).
Qed.

Lemma get_host_attestation_new (host : pykey) (w : world) :
  storage_nodes w !! host = None →
  get_host_attestation X CONF E host w =
  get_host_attestation X CONF E host
    (World (<[host := init_entry]> (storage_nodes w)) (clock_reads w) (polls w)).
Proof.
  intros Hnew. unfold get_host_attestation, _init_cache_entry. run.
  rewrite Hnew. rewrite decide_False by (by intros [? ?]).
  simpl. rewrite lookup_insert_eq. by rewrite decide_True by (by eexists).
Qed.

Lemma get_host_attestation_stale_polls (host : pykey) (w : world) (e : entry) :
  storage_nodes w !! host = Some e →
  (timedelta_seconds (attestation_auth_timeout CONF)
   < clock E (clock_reads w) - vtime e)%Z →
  polls (snd (get_host_attestation X CONF E host w))
  = (polls w ++ [dict_keys (storage_nodes w)])%list.
Proof.
  intros He Hage. rewrite (get_host_attestation_stale host w e He Hage).
  pose proof (update_cache_polls (tick w)) as Hp.
  rewrite dict_keys_reset in Hp. simpl in Hp.
  destruct (_update_cache X E (tick w)) as [[[]|err] w']; simpl in *; [|done].
  by destruct (storage_nodes w' !! host).
Qed.

(** C4 (as amended).  An entry is stale exactly when its age is strictly
    greater than the staleness window: [_cache_valid] answers [False] iff
    [now - vtime > window].  A lookup of an entry that is not stale returns
    the cached level, takes one clock reading and changes nothing else (no
    refresh, no query); a lookup of a stale entry issues exactly one batch
    query, over all tracked hosts.  With a window of 60 seconds, an entry
    verified 30 seconds ago is served from the cache and one verified 120
    seconds ago triggers exactly one batch query. *)
Theorem staleness_policy (host : pykey) (w : world) (e : entry) :
  storage_nodes w !! host = Some e →
  let age := (clock E (clock_reads w) - vtime e)%Z in
  let window := timedelta_seconds (attestation_auth_timeout CONF) in
  (fst (_cache_valid CONF E host w) = Ok false ↔ (age > window)%Z) ∧
  ((age ≤ window)%Z →
   get_host_attestation X CONF E host w = (Ok (trust_lvl e), tick w)) ∧
  ((age > window)%Z →
   polls (snd (get_host_attestation X CONF E host w))
   = (polls w ++ [dict_keys (storage_nodes w)])%list) ∧
  (attestation_auth_timeout CONF = 60%Z → age = timedelta_seconds 30 →
   get_host_attestation X CONF E host w = (Ok (trust_lvl e), tick w)) ∧
  (attestation_auth_timeout CONF = 60%Z → age = timedelta_seconds 120 →
   polls (snd (get_host_attestation X CONF E host w))
   = (polls w ++ [dict_keys (storage_nodes w)])%list).
Proof.
  intros He age window. repeat split.
  - rewrite cache_valid_spec, He. simpl. intros [= Hv].
    apply negb_false_iff, Z.ltb_lt in Hv. subst age window. lia.
  - intros Hage. rewrite cache_valid_spec, He. simpl. f_equal.
    apply negb_false_iff, Z.ltb_lt. subst age window. lia.
  - intros Hage. by apply get_host_attestation_fresh.
  - intros Hage. apply (get_host_attestation_stale_polls host w e He).
    subst age window. lia.
  - intros H60 Hage. apply (get_host_attestation_fresh host w e He).
    fold age. rewrite Hage, H60. unfold timedelta_seconds. lia.
  - intros H60 Hage. apply (get_host_attestation_stale_polls host w e He).
    fold age. rewrite Hage, H60. unfold timedelta_seconds. lia.
Qed.

(** C2 (as amended).  Lazy creation of an entry for an untracked host, and
    every lookup that issues no batch query, leave each existing entry as it
    was, so its [vtime] does not decrease.  (A refresh resets every [vtime]
    to the epoch before it repopulates the table.) *)
Theorem vtime_kept_without_refresh (host h : pykey) (w : world) (e : entry) :
  storage_nodes w !! h = Some e →
  (storage_nodes w !! host = None →
   storage_nodes (snd (_init_cache_entry host w)) !! h = Some e) ∧
  (polls (snd (get_host_attestation X CONF E host w)) = polls w →
   storage_nodes (snd (get_host_attestation X CONF E host w)) !! h = Some e).
Proof.
  intros He. split.
  - intros Hnew. unfold _init_cache_entry, set_node. simpl.
    rewrite lookup_insert_ne; [done | congruence].
  - assert (∀ (w1 : world) (e1 : entry),
      storage_nodes w1 !! host = Some e1 → storage_nodes w1 !! h = Some e →
      polls (snd (get_host_attestation X CONF E host w1)) = polls w1 →
      storage_nodes (snd (get_host_attestation X CONF E host w1)) !! h = Some e)
      as Htracked.
    { intros w1 e1 H1 Hh Hp.
      destruct (Z_le_gt_dec (clock E (clock_reads w1) - vtime e1)
                  (timedelta_seconds (attestation_auth_timeout CONF)))
        as [Hage|Hage].
      - by rewrite (get_host_attestation_fresh host w1 e1 H1 Hage).
      - rewrite (get_host_attestation_stale_polls host w1 e1 H1) in Hp by lia.
        apply (f_equal length) in Hp. rewrite length_app in Hp. simpl in Hp. lia. }
    destruct (storage_nodes w !! host) as [e0|] eqn:Hhost.
    + by apply (Htracked w e0).
    + rewrite (get_host_attestation_new host w Hhost). intros Hp.
      apply (Htracked _ init_entry); simpl.
      * by rewrite lookup_insert_eq.
      * rewrite lookup_insert_ne; [done | congruence].
      * done.
Qed.


(** X15.  What [_update_cache_entry] does with a per-host tuple that has
    its three fields and a hashable host name: the timestamp is parsed as
    ISO-8601 first and with the C-locale format when that raises
    [ValueError]; the reported level is stored verbatim with the parsed
    time; when both parsers raise [ValueError] the entry is stored as
    [unknown] with the current clock reading as its [vtime]; when a parser
    raises anything else the exception escapes and nothing is stored. *)
Theorem update_cache_entry_timestamp (state host lvl raw : json) (key : pykey)
    (w : world) :
  subscript state "host_name" = Ok host →
  subscript state "trust_lvl" = Ok lvl →
  subscript state "vtime" = Ok raw →
  hashable host = Ok key →
  _update_cache_entry X E state w =
  match isotime X raw with
  | Parsed t =>
      (Ok tt, World (<[key := Entry lvl t]> (storage_nodes w))
                    (clock_reads w) (polls w))
  | OtherErr err => (Raise err, w)
  | ValueErr =>
      match strtime X raw with
      | Parsed t =>
          (Ok tt, World (<[key := Entry lvl t]> (storage_nodes w))
                        (clock_reads w) (polls w))
      | OtherErr err => (Raise err, w)
      | ValueErr =>
          (Ok tt,
           World (<[key := Entry (JStr "unknown") (clock E (clock_reads w))]>
                    (storage_nodes w))
                 (S (clock_reads w)) (polls w))
      end
  end.
Proof.
  intros Hhost Hlvl Hraw Hkey. unfold _update_cache_entry, utcnow. run.
  rewrite Hhost, Hlvl, Hraw.
  destruct (isotime X raw) as [t| |err]; [by rewrite Hkey| |done].
  destruct (strtime X raw) as [t| |err]; [by rewrite Hkey| |done].
  by rewrite Hkey.
Qed.

(** C9 (as amended).  For a host that is untracked, or tracked with level
    [unknown], when the refresh the lookup may trigger yields no data, the
    lookup returns [unknown]; hence [is_trusted] and
    [TrustedFilter.backend_passes] answer [False] for every required level
    other than the string [unknown]. *)
Theorem never_attested_unknown (backend : string) (w : world) :
  let host := KStr (hd EmptyString (split "@" backend)) in
  (∀ e, storage_nodes w !! host = Some e → trust_lvl e = JStr "unknown") →
  (∀ hosts, answer X (authority E (length (polls w)) hosts) = Ok JNull) →
  fst (get_host_attestation X CONF E host w) = Ok (JStr "unknown") ∧
  (∀ trust, trust ≠ "unknown" →
     fst (is_trusted X CONF E host trust w) = Ok false) ∧
  (∀ metadata trust,
     metadata !! "trust:trusted_host" = Some trust → trust ≠ "unknown" →
     fst (backend_passes X CONF E backend metadata w) = Ok false).
Proof.
  intros host Hlvl Hans.
  assert (fst (get_host_attestation X CONF E host w) = Ok (JStr "unknown"))
    as Hget.
  { assert (∀ (w1 : world) (e1 : entry),
      polls w1 = polls w → storage_nodes w1 !! host = Some e1 →
      trust_lvl e1 = JStr "unknown" →
      fst (get_host_attestation X CONF E host w1) = Ok (JStr "unknown"))
      as Htracked.
    { intros w1 e1 Hp H1 Hu.
      destruct (Z_le_gt_dec (clock E (clock_reads w1) - vtime e1)
                  (timedelta_seconds (attestation_auth_timeout CONF)))
        as [Hage|Hage].
      - rewrite (get_host_attestation_fresh host w1 e1 H1 Hage). simpl.
        by rewrite Hu.
      - rewrite (get_host_attestation_stale host w1 e1 H1) by lia.
        rewrite update_cache_unfold. simpl. rewrite Hp, Hans. simpl.
        unfold reset. rewrite lookup_fmap, H1. done. }
    destruct (storage_nodes w !! host) as [e0|] eqn:Hhost.
    - apply (Htracked w e0); auto.
    - rewrite (get_host_attestation_new host w Hhost).
      apply (Htracked _ init_entry); simpl; [done| |done].
      by rewrite lookup_insert_eq. }
  assert (∀ trust, trust ≠ "unknown" →
            fst (is_trusted X CONF E host trust w) = Ok false) as Htrust.
  { intros trust Hne. unfold is_trusted. run.
    destruct (get_host_attestation X CONF E host w) as [[level|err] w'];
      simpl in *; [|done].
    injection Hget as ->. simpl. f_equal.
    by apply String.eqb_neq. }
  repeat split; [done..|].
  intros metadata trust Hmeta Hne. unfold backend_passes. rewrite Hmeta.
  by apply Htrust.
Qed.

End CacheFacts.

(** ** The cache on sample inputs *)

Lemma staleness_policy_witness :
  trusted_filter.get_host_attestation sample_extern sample_conf
    (unreachable 30000000) (KStr "h1") (cache_h1 0)
  = (Ok (JStr "trusted"), trusted_filter.tick (cache_h1 0)).
Proof.
  destruct (staleness_policy sample_extern sample_conf (unreachable 30000000)
              (KStr "h1") (cache_h1 0)
              (trusted_filter.Entry (JStr "trusted") 0))
    as (_ & _ & _ & H30 & _).
  - reflexivity.
  - apply H30; reflexivity.
Defined.

(** C4, the claim as stated fails on the boundary: with a window of 60
    seconds and an entry verified exactly 60 seconds ago,
    [now - vtime >= window] holds, yet [_cache_valid] answers [True] and the
    lookup issues no query. *)
Lemma staleness_boundary_not_stale :
  (trusted_filter.clock (unreachable 60000000) 0
   - trusted_filter.vtime (trusted_filter.Entry (JStr "trusted") 0)
   >= timedelta_seconds (attestation_auth_timeout sample_conf))%Z ∧
  trusted_filter.storage_nodes (cache_h1 0) !! KStr "h1"
  = Some (trusted_filter.Entry (JStr "trusted") 0) ∧
  fst (trusted_filter._cache_valid sample_conf (unreachable 60000000)
         (KStr "h1") (cache_h1 0)) = Ok true ∧
  trusted_filter.polls
    (snd (trusted_filter.get_host_attestation sample_extern sample_conf
            (unreachable 60000000) (KStr "h1") (cache_h1 0))) = [].
Proof. vm_compute. repeat split; congruence. Qed.

Lemma vtime_kept_without_refresh_witness :
  trusted_filter.storage_nodes
    (snd (trusted_filter.get_host_attestation sample_extern sample_conf
            (unreachable 30000000) (KStr "h1") (cache_h1 0))) !! KStr "h1"
  = Some (trusted_filter.Entry (JStr "trusted") 0).
Proof.
  apply (vtime_kept_without_refresh sample_extern sample_conf
           (unreachable 30000000) (KStr "h1") (KStr "h1") (cache_h1 0)).
  - reflexivity.
  - reflexivity.
Defined.

(** C2, the claim as stated fails: [h1] was verified at second 100; a lookup
    at second 200 finds the entry stale, the refresh resets it and the server
    cannot be reached, so the entry ends with [vtime] at the epoch. *)
Lemma vtime_decreases_on_refresh :
  trusted_filter.storage_nodes (cache_h1 100000000) !! KStr "h1"
  = Some (trusted_filter.Entry (JStr "trusted") 100000000) ∧
  trusted_filter.storage_nodes
    (snd (trusted_filter.get_host_attestation sample_extern sample_conf
            (unreachable 200000000) (KStr "h1") (cache_h1 100000000)))
    !! KStr "h1"
  = Some (trusted_filter.Entry (JStr "unknown") 0) ∧
  (0 < 100000000)%Z.
Proof. vm_compute. repeat split; congruence. Qed.


Lemma update_cache_entry_timestamp_witness :
  trusted_filter._update_cache_entry sample_extern (unreachable 90000000)
    state_h1_bad_time fresh_cache
  = (Ok tt,
     trusted_filter.World
       (<[KStr "h1" := trusted_filter.Entry (JStr "unknown") 90000000]> ∅)
       1 []).
Proof.
  exact (update_cache_entry_timestamp sample_extern (unreachable 90000000)
           state_h1_bad_time (JStr "h1") (JStr "trusted") (JStr "yesterday")
           (KStr "h1") fresh_cache eq_refl eq_refl eq_refl eq_refl).
Defined.

Lemma never_attested_unknown_witness :
  fst (trusted_filter.get_host_attestation sample_extern sample_conf
         (unreachable 120000000) (KStr "h1") fresh_cache)
  = Ok (JStr "unknown").
Proof.
  apply (never_attested_unknown sample_extern sample_conf
           (unreachable 120000000) "h1@lvm" fresh_cache).
  - intros e He. vm_compute in He. discriminate.
  - intros hosts. reflexivity.
Defined.

(** C9, the claim as stated fails twice.  A request that requires the level
    [unknown] is accepted on a host that was never attested, the server being
    out of reach; and the first lookup of a host that was never queried
    returns [trusted] when the refresh it triggers succeeds. *)
Lemma unknown_requirement_accepted :
  fst (trusted_filter.backend_passes sample_extern sample_conf
         (unreachable 120000000) "h1@lvm"
         {[ "trust:trusted_host" := "unknown" ]} fresh_cache) = Ok true ∧
  fst (trusted_filter.get_host_attestation sample_extern sample_conf
         (answering 90000000 body_h1) (KStr "h1") fresh_cache)
  = Ok (JStr "trusted").
Proof. vm_compute. split; reflexivity. Qed.

(** C6, a timestamp that is no string.  For the tuple
    [{'host_name': 'h1', 'trust_lvl': 'trusted', 'vtime': 5}] the ISO-8601
    parser raises [ValueError] and the C-locale parser raises [TypeError],
    which [except ValueError] does not catch: [_update_cache_entry] raises
    and stores nothing, so after the refresh that met the tuple the entry of
    [h1] is [unknown] at the epoch, not at the current time, and the lookup
    raises. *)
Theorem non_string_vtime_raises :
  isotime sample_extern_num (JNum 5) = ValueErr ∧
  strtime sample_extern_num (JNum 5) = OtherErr TypeError ∧
  fst (trusted_filter._update_cache_entry sample_extern_num
         (unreachable 90000000) state_h1_num_time (cache_h1 0))
  = Raise TypeError ∧
  trusted_filter.storage_nodes
    (snd (trusted_filter._update_cache_entry sample_extern_num
            (unreachable 90000000) state_h1_num_time (cache_h1 0)))
    !! KStr "h1"
  = Some (trusted_filter.Entry (JStr "trusted") 0) ∧
  fst (trusted_filter.get_host_attestation sample_extern_num sample_conf
         (answering 90000000 body_num_vtime) (KStr "h1") (cache_h1 0))
  = Raise TypeError ∧
  trusted_filter.storage_nodes
    (snd (trusted_filter.get_host_attestation sample_extern_num sample_conf
            (answering 90000000 body_num_vtime) (KStr "h1") (cache_h1 0)))
    !! KStr "h1"
  = Some (trusted_filter.Entry (JStr "unknown") 0).
Proof. vm_compute. repeat split; reflexivity. Qed.

(** C3, the operation is not total.  A 200 answer whose body is not JSON
    makes [do_attestation] call [.get] on a string; a tuple without [vtime]
    makes [_update_cache_entry] index a missing key; both exceptions pass
    through the lookup and [TrustedFilter.backend_passes] to the caller. *)
Theorem malformed_answer_raises :
  loads sample_extern "<html>" = None ∧
  fst (trusted_filter.backend_passes sample_extern sample_conf
         (answering 120000000 "<html>") "h1@lvm"
         {[ "trust:trusted_host" := "trusted" ]} fresh_cache)
  = Raise AttributeError ∧
  fst (trusted_filter.backend_passes sample_extern sample_conf
         (answering 120000000 body_no_vtime) "h1@lvm"
         {[ "trust:trusted_host" := "trusted" ]} fresh_cache)
  = Raise KeyError.
Proof. vm_compute. repeat split; reflexivity. Qed.

(** * Properties of the trust assertion filter *)

Section FilterFacts.

Import asset_tag_filter.

Context (X : extern) (CONF : conf) (server : string -> http_result).

Lemma check_tags_item_ok (host_tags : gmap string string)
    (sel_tags : list (literal * literal)) (iteration_status : bool) :
  match check_tags host_tags sel_tags iteration_status with
  | Some true => true
  | _ => false
  end = iteration_status && forallb (item_ok host_tags) sel_tags.
Proof.
  revert iteration_status.
  induction sel_tags as [|[tag accepted] rest IH]; intros b; simpl.
  - destruct b; reflexivity.
  - unfold item_ok at 1. simpl.
    destruct (host_tag host_tags tag) as [value|].
    + destruct (contains value accepted) as [[]|].
      * apply IH.
      * rewrite IH. by destruct b.
      * by destruct b.
    + rewrite IH. by destruct b.
Qed.

Lemma verify_asset_tag_forallb (host_tags : gmap string string) (s : string)
    (sel_tags : list (literal * literal)) :
  literal_eval X (lower s) = Some (LDict sel_tags) →
  verify_asset_tag X host_tags s = forallb (item_ok host_tags) sel_tags.
Proof.
  intros Hsel. unfold verify_asset_tag. rewrite Hsel.
  apply check_tags_item_ok.
Qed.

Lemma existsb_literal_eq_str (value : string) (vals : list literal) :
  existsb (literal_eq_str value) vals = true ↔ LStr value ∈ vals.
Proof.
  rewrite existsb_exists. split.
  - intros (v & Hin & Heq). destruct v; try discriminate.
    apply String.eqb_eq in Heq as ->. by apply list_elem_of_In.
  - intros Hin. exists (LStr value). split; [by apply list_elem_of_In|].
    apply String.eqb_refl.
Qed.

Lemma item_ok_well_formed (host_tags : gmap string string)
    (tag accepted : literal) :
  is_Some (accepted_values accepted) →
  item_ok host_tags (tag, accepted) = true ↔
  ∃ value vals, host_tag host_tags tag = Some value ∧
                accepted_values accepted = Some vals ∧ LStr value ∈ vals.
Proof.
  intros [vals Hvals]. unfold item_ok. simpl.
  assert (∀ value, contains value accepted
                   = Some (existsb (literal_eq_str value) vals)) as Hc.
  { intros value. destruct accepted; simplify_eq/=; done. }
  split.
  - destruct (host_tag host_tags tag) as [value|]; [|done].
    rewrite Hc. destruct (existsb _ vals) eqn:Hex; [|done].
    intros _. exists value, vals. by rewrite <- existsb_literal_eq_str.
  - intros (value & vals' & -> & Hv & Hin). rewrite Hc.
    simplify_eq. apply existsb_literal_eq_str in Hin. by rewrite Hin.
Qed.

Lemma host_tag_Some (host_tags : gmap string string) (tag : literal)
    (value : string) :
  host_tag host_tags tag = Some value ↔
  ∃ k, tag = LStr k ∧ host_tags !! k = Some value.
Proof.
  destruct tag as [| | |k| | |]; simpl;
    (split; [intros Hv; try done | intros (k' & Hk & Hv); try done]).
  - by exists k.
  - by injection Hk as ->.
Qed.

(** C7 (as amended).  For a selection text whose lower-cased form evaluates
    to a mapping whose values are lists or tuples, [verify_asset_tag]
    answers [True] iff every key of that lower-cased mapping is a string that
    is a key of the host's tags, as the host's mapping spells it, and the
    host's value for it is one of the lower-cased values accepted for that
    key; an empty selection mapping gives [True] whatever the host's tags. *)
Theorem verify_asset_tag_iff (host_tags : gmap string string) (s : string)
    (sel_tags : list (literal * literal)) :
  literal_eval X (lower s) = Some (LDict sel_tags) →
  well_formed sel_tags →
  (verify_asset_tag X host_tags s = true ↔
   ∀ tag accepted, (tag, accepted) ∈ sel_tags →
     ∃ k value vals, tag = LStr k ∧ host_tags !! k = Some value ∧
                     accepted_values accepted = Some vals ∧
                     LStr value ∈ vals) ∧
  (sel_tags = [] → verify_asset_tag X host_tags s = true).
Proof.
  intros Hsel Hwf. rewrite (verify_asset_tag_forallb host_tags s sel_tags Hsel).
  split; [|by intros ->].
  assert (∀ tag accepted, (tag, accepted) ∈ sel_tags →
            item_ok host_tags (tag, accepted) = true ↔
            ∃ k value vals, tag = LStr k ∧ host_tags !! k = Some value ∧
                            accepted_values accepted = Some vals ∧
                            LStr value ∈ vals) as Hitem.
  { intros tag accepted Hin.
    unfold well_formed in Hwf. rewrite Forall_forall in Hwf.
    rewrite (item_ok_well_formed host_tags tag accepted)
      by (by apply (Hwf (tag, accepted))).
    split.
    - intros (value & vals & (k & -> & Hk)%host_tag_Some & Hv & Hmem).
      by exists k, value, vals.
    - intros (k & value & vals & -> & Hk & Hv & Hmem).
      by exists value, vals. }
  rewrite forallb_forall. split.
  - intros Hall tag accepted Hin.
    apply (Hitem tag accepted Hin). by apply Hall, list_elem_of_In.
  - intros Hall [tag accepted] Hin%list_elem_of_In.
    apply (Hitem tag accepted Hin). by apply Hall.
Qed.


Lemma backend_passes_trust (host : string) (spec : request_spec)
    (metadata : gmap string string) (t : string) :
  metadata !! "trust" = Some t →
  backend_passes X CONF server host spec metadata =
  let tag_selections := default "None" (metadata !! "asset_tags") in
  match do_attestation CONF server (hd EmptyString (split "@" host)) with
  | Raise e => (Raise e, metadata)
  | Ok host_data =>
      let (trust, asset_tag) := verify_and_parse_saml X host_data in
      if negb trust then (Ok false, metadata)
      else if negb (String.eqb tag_selections "None")
           then (Ok (verify_asset_tag X asset_tag tag_selections), metadata)
           else (Ok true, metadata)
  end.
Proof.
  intros Ht. unfold backend_passes.
  rewrite (bool_decide_eq_false_2 (metadata = ∅)).
  2:{ intros ->. by rewrite lookup_empty in Ht. }
  simpl. rewrite Ht. rewrite bool_decide_eq_true_2 by (by eexists). done.
Qed.

Lemma do_attestation_built (hostname : string) :
  is_Some (attestation_auth_blob CONF) →
  ∃ host_data, do_attestation CONF server hostname = Ok host_data.
Proof.
  intros [blob Hblob]. unfold do_attestation, _request. rewrite Hblob.
  destruct (status_is_OK _); by eexists.
Qed.


Lemma blank_on_trusted_test (spec : request_spec) :
  blank_on_trusted CONF spec →
  bool_decide (image_id spec = None) && bool_decide (snapshot_id spec = None)
  = true ∧ create_blank_on_trusted CONF = true.
Proof.
  intros (Himg & Hsnap & Hflag). by rewrite !bool_decide_eq_true_2.
Qed.

Lemma backend_passes_snd (host : string) (spec : request_spec)
    (metadata : gmap string string) :
  snd (backend_passes X CONF server host spec metadata) =
  if bool_decide (metadata = ∅)
     && (bool_decide (image_id spec = None)
         && bool_decide (snapshot_id spec = None))
     && create_blank_on_trusted CONF
  then <["asset_tags" := default_asset_tags CONF]>
         (<["trust" := "trusted"]> metadata)
  else metadata.
Proof.
  unfold backend_passes.
  match goal with
  | |- snd (if bool_decide (is_Some (?m !! "trust")) then _ else _) = _ =>
      generalize m; intros md
  end.
  destruct (bool_decide (is_Some (md !! "trust"))); [|done].
  destruct (do_attestation CONF server _) as [host_data|]; [|done].
  destruct (verify_and_parse_saml X host_data) as [trust asset_tag].
  destruct (negb trust); [done|]. by destruct (negb _).
Qed.


(** C10.  Called with an empty metadata mapping for a blank volume while
    [create_blank_on_trusted] is set, [backend_passes] leaves the keys
    [trust] and [asset_tags] written in the caller's mapping; on every other
    input the mapping is left as it was, whatever the call returns or
    raises. *)
Theorem metadata_written_in_place (host : string) (spec : request_spec)
    (metadata : gmap string string) :
  (metadata = ∅ → blank_on_trusted CONF spec →
   snd (backend_passes X CONF server host spec metadata) = synthesized CONF ∧
   snd (backend_passes X CONF server host spec metadata) !! "trust"
   = Some "trusted" ∧
   snd (backend_passes X CONF server host spec metadata) !! "asset_tags"
   = Some (default_asset_tags CONF)) ∧
  (¬ (metadata = ∅ ∧ blank_on_trusted CONF spec) →
   snd (backend_passes X CONF server host spec metadata) = metadata).
Proof.
  rewrite backend_passes_snd. split.
  - intros -> Hblank. rewrite (bool_decide_eq_true_2 (∅ = ∅)) by done.
    destruct (blank_on_trusted_test spec Hblank) as [-> ->]. simpl.
    fold (synthesized CONF). split; [done|]. unfold synthesized.
    by rewrite lookup_insert_ne, !lookup_insert_eq.
  - intros Hnot.
    destruct (bool_decide (metadata = ∅) && _ && _) eqn:Hcond; [|done].
    exfalso. apply Hnot.
    apply andb_prop in Hcond as [Hcond Hflag].
    apply andb_prop in Hcond as [Hempty Hblank].
    apply andb_prop in Hblank as [Himg Hsnap].
    apply bool_decide_eq_true in Hempty, Himg, Hsnap. by repeat split.
Qed.

End FilterFacts.

(** ** The trust assertion filter on sample inputs *)

Lemma verify_asset_tag_iff_witness :
  asset_tag_filter.verify_asset_tag sample_extern {[ "env" := "prod" ]}
    "{'Env': ['Prod']}" = true.
Proof.
  destruct (verify_asset_tag_iff sample_extern {[ "env" := "prod" ]}
              "{'Env': ['Prod']}" [(LStr "env", LList [LStr "prod"])])
    as [[_ Hall] _].
  - reflexivity.
  - repeat constructor. by eexists.
  - apply Hall. intros tag accepted Hin.
    apply list_elem_of_singleton in Hin. injection Hin as -> ->.
    exists "env", "prod", [LStr "prod"]. repeat split. by constructor.
Defined.

(** C7, the claim as stated fails: the selection text is lower-cased before
    it is evaluated and the host's tags are not.  The selection
    [{'ENV': ['PROD']}] has the one key [ENV] with the accepted value [PROD];
    the host's tags [{'ENV': 'PROD'}] have that key with that value; yet
    [verify_asset_tag] answers [False], because it looks for the key [env]. *)
Lemma uppercase_host_tags_not_matched :
  literal_eval sample_extern_case "{'ENV': ['PROD']}"
  = Some (LDict [(LStr "ENV", LList [LStr "PROD"])]) ∧
  ({[ "ENV" := "PROD" ]} : gmap string string) !! "ENV" = Some "PROD" ∧
  literal_eval sample_extern_case (lower "{'ENV': ['PROD']}")
  = Some (LDict [(LStr "env", LList [LStr "prod"])]) ∧
  asset_tag_filter.verify_asset_tag sample_extern_case {[ "ENV" := "PROD" ]}
    "{'ENV': ['PROD']}" = false.
Proof. vm_compute. repeat split; reflexivity. Qed.




(** C1, a request the code lets through.  With [create_blank_on_trusted]
    set, a blank-volume request whose metadata has no [trust] key but is not
    empty is accepted without any attestation, although the requirement
    synthesized from the defaults rejects the same host (its attestation
    server is out of reach): the synthesis is guarded by [metadata == {}].
    And [TrustedFilter.backend_passes], given a request without
    [trust:trusted_host] under the options the repository registers, raises
    [NoSuchOptError] instead of deciding. *)
Theorem nonempty_metadata_not_synthesized :
  ({[ "purpose" := "db" ]} : gmap string string) !! "trust" = None ∧
  asset_tag_filter.blank_on_trusted sample_conf blank_volume ∧
  fst (asset_tag_filter.backend_passes sample_extern sample_conf no_server
         "h1@lvm" blank_volume {[ "purpose" := "db" ]}) = Ok true ∧
  fst (asset_tag_filter.backend_passes sample_extern sample_conf no_server
         "h1@lvm" blank_volume (asset_tag_filter.synthesized sample_conf))
  = Ok false ∧
  fst (trusted_filter.backend_passes sample_extern registered_conf
         (unreachable 0) "h1@lvm" ∅ fresh_cache) = Raise NoSuchOptError.
Proof. vm_compute. repeat split; reflexivity. Qed.

Lemma metadata_written_in_place_witness :
  snd (asset_tag_filter.backend_passes sample_extern sample_conf no_server
         "h1@lvm" blank_volume ∅) !! "trust" = Some "trusted".
Proof.
  destruct (metadata_written_in_place sample_extern sample_conf no_server
              "h1@lvm" blank_volume ∅) as (Hwrite & _).
  apply Hwrite.
  - reflexivity.
  - repeat split.
Defined.

(** * Further properties of the attestation cache *)

Section CacheMore.

Import trusted_filter.

Context (X : extern) (CONF : conf) (E : env).

Ltac run_M :=
  unfold mbind, M_bind, bind, ret, raise, lift, get_nodes, set_node.

Lemma ensure_tracked (host : pykey) (w : world) :
  ∃ e, storage_nodes (ensure host w) !! host = Some e ∧
       vtime e = match storage_nodes w !! host with
                 | Some e0 => vtime e0
                 | None => epoch
                 end ∧
       trust_lvl e = match storage_nodes w !! host with
                     | Some e0 => trust_lvl e0
                     | None => JStr "unknown"
                     end.
Proof.
  unfold ensure. destruct (storage_nodes w !! host) as [e0|] eqn:Hw.
  - exists e0. by rewrite Hw.
  - exists init_entry. simpl. by rewrite lookup_insert_eq.
Qed.

Lemma ensure_frame (host : pykey) (w : world) :
  clock_reads (ensure host w) = clock_reads w ∧
  polls (ensure host w) = polls w ∧
  (∀ h e, storage_nodes w !! h = Some e →
          storage_nodes (ensure host w) !! h = Some e).
Proof.
  unfold ensure. destruct (storage_nodes w !! host) as [e0|] eqn:Hw; [done|].
  simpl. repeat split; [].
  intros h e He. rewrite lookup_insert_ne; [done | congruence].
Qed.

Lemma get_host_attestation_ensure (host : pykey) (w : world) :
  get_host_attestation X CONF E host w
  = get_host_attestation X CONF E host (ensure host w).
Proof.
  unfold ensure. destruct (storage_nodes w !! host) as [e0|] eqn:Hw; [done|].
  by apply get_host_attestation_new.
Qed.

(** A lookup that finds the entry too old is the refresh followed by the
    read of the entry. *)
Lemma get_host_attestation_refresh (host : pykey) (w : world) :
  needs_refresh CONF E host w →
  get_host_attestation X CONF E host w =
  match _update_cache X E (tick (ensure host w)) with
  | (Ok _, w') =>
      match storage_nodes w' !! host with
      | Some node => (Ok (trust_lvl node), w')
      | None => (Raise AttributeError, w')
      end
  | (Raise err, w') => (Raise err, w')
  end.
Proof.
  intros Hold. rewrite get_host_attestation_ensure.
  destruct (ensure_tracked host w) as (e & He & Hv & _).
  destruct (ensure_frame host w) as (Hr & _ & _).
  apply (get_host_attestation_stale X CONF E host (ensure host w) e He).
  unfold needs_refresh in Hold. by rewrite Hr, Hv.
Qed.

(** A lookup that finds the entry young enough reads it and does nothing
    else. *)
Lemma get_host_attestation_cached (host : pykey) (w : world) :
  ¬ needs_refresh CONF E host w →
  get_host_attestation X CONF E host w =
  (Ok match storage_nodes w !! host with
      | Some e => trust_lvl e
      | None => JStr "unknown"
      end, tick (ensure host w)).
Proof.
  intros Hyoung. rewrite get_host_attestation_ensure.
  destruct (ensure_tracked host w) as (e & He & Hv & Hl).
  destruct (ensure_frame host w) as (Hr & _ & _).
  rewrite <- Hl.
  apply (get_host_attestation_fresh X CONF E host (ensure host w) e He).
  unfold needs_refresh in Hyoung. rewrite Hr, Hv. lia.
Qed.

Lemma snd_read_after (host : pykey) (r : res unit * world) :
  snd (match r with
       | (Ok _, w') =>
           match storage_nodes w' !! host with
           | Some node => (Ok (trust_lvl node), w')
           | None => (@Raise json AttributeError, w')
           end
       | (Raise err, w') => (Raise err, w')
       end) = snd r.
Proof.
  destruct r as [[[]|err] w']; [|done]. by destruct (storage_nodes w' !! host).
Qed.

(** X1.  A lookup never forgets a host: whatever it returns or raises, every
    host tracked before it is tracked after it, and so is the host that was
    looked up. *)
Theorem tracked_hosts_only_grow (host h : pykey) (w : world) :
  is_Some (storage_nodes w !! h) ∨ h = host →
  is_Some (storage_nodes (snd (get_host_attestation X CONF E host w)) !! h).
Proof.
  intros Hh.
  assert (is_Some (storage_nodes (ensure host w) !! h)) as Hens.
  { destruct Hh as [[e He]| ->].
    - exists e. by apply ensure_frame.
    - destruct (ensure_tracked host w) as (e & He & _). by exists e. }
  destruct (Z_lt_dec
              (timedelta_seconds (attestation_auth_timeout CONF))
              (clock E (clock_reads w)
               - match storage_nodes w !! host with
                 | Some e => vtime e
                 | None => epoch
                 end)) as [Hold|Hyoung].
  - rewrite (get_host_attestation_refresh host w Hold), snd_read_after.
    by apply update_cache_tracked.
  - by rewrite (get_host_attestation_cached host w Hyoung).
Qed.

Lemma update_cache_entry_ok (state : json) (w : world) :
  well_formed_tuple X state →
  ∃ key e n,
    _update_cache_entry X E state w
    = (Ok tt, World (<[key := e]> (storage_nodes w)) n (polls w)).
Proof.
  intros (host & lvl & raw & key & Hhost & Hlvl & Hraw & Hkey & Hiso & Hstr).
  unfold _update_cache_entry, utcnow. run_M. rewrite Hhost, Hlvl, Hraw.
  destruct (isotime X raw) as [t| |err] eqn:Hi.
  - rewrite Hkey. by eexists _, _, _.
  - destruct (strtime X raw) as [t| |err] eqn:Hs.
    + rewrite Hkey. by eexists _, _, _.
    + rewrite Hkey. by eexists _, _, _.
    + by destruct (Hstr eq_refl err).
  - by destruct (Hiso err).
Qed.

Lemma for_each_ok (items : list json) (w : world) :
  Forall (well_formed_tuple X) items →
  fst (for_each (_update_cache_entry X E) items w) = Ok tt.
Proof.
  intros Hall. revert w. induction Hall as [|state items Hwf _ IH]; intros w.
  - done.
  - simpl. unfold bind.
    destruct (update_cache_entry_ok state w Hwf) as (key & e & n & ->).
    apply IH.
Qed.

Lemma for_each_app (pre post : list json) (w : world) :
  for_each (_update_cache_entry X E) (pre ++ post)%list w =
  match for_each (_update_cache_entry X E) pre w with
  | (Ok _, w') => for_each (_update_cache_entry X E) post w'
  | (Raise err, w') => (Raise err, w')
  end.
Proof.
  revert w. induction pre as [|state pre IH]; intros w; simpl.
  - done.
  - unfold bind.
    destruct (_update_cache_entry X E state w) as [[[]|err] w1]; [|done].
    apply IH.
Qed.

Lemma update_cache_ok (w : world) (states : json) :
  answer X (authority E (length (polls w)) (dict_keys (storage_nodes w)))
  = Ok states →
  well_formed_answer X states →
  fst (_update_cache X E w) = Ok tt.
Proof.
  intros Hans Hwf. rewrite update_cache_unfold. simpl.
  rewrite dict_keys_reset, Hans.
  destruct Hwf as [->|(items & Hit & Hall)]; [done|].
  rewrite Hit.
  destruct states; try (by apply for_each_ok); done.
Qed.

(** X2.  When the server's answer is no data or an iterable of well-formed
    tuples, the lookup does not raise: it returns a level, and
    [TrustedFilter.backend_passes] returns a decision for every request that
    names a trust level. *)
Theorem well_formed_answer_never_raises (backend : string)
    (metadata : gmap string string) (trust : string) (w : world) :
  (∀ hosts, ∃ states,
     answer X (authority E (length (polls w)) hosts) = Ok states ∧
     well_formed_answer X states) →
  metadata !! "trust:trusted_host" = Some trust →
  (∀ host, ∃ level, fst (get_host_attestation X CONF E host w) = Ok level) ∧
  ∃ decision, fst (backend_passes X CONF E backend metadata w) = Ok decision.
Proof.
  intros Hans Hmeta.
  assert (∀ host, ∃ level,
            fst (get_host_attestation X CONF E host w) = Ok level) as Hget.
  { intros host.
    destruct (Z_lt_dec
                (timedelta_seconds (attestation_auth_timeout CONF))
                (clock E (clock_reads w)
                 - match storage_nodes w !! host with
                   | Some e => vtime e
                   | None => epoch
                   end)) as [Hold|Hyoung].
    - rewrite (get_host_attestation_refresh host w Hold).
      destruct (ensure_frame host w) as (_ & Hp & _).
      destruct (Hans (dict_keys (storage_nodes (tick (ensure host w)))))
        as (states & Hstates & Hwf).
      pose proof (update_cache_ok (tick (ensure host w)) states) as Hok.
      simpl in Hok. rewrite Hp in Hok. specialize (Hok Hstates Hwf).
      pose proof (update_cache_tracked X E (tick (ensure host w)) host) as Htr.
      destruct (ensure_tracked host w) as (e & He & _).
      simpl in Htr. specialize (Htr (ex_intro _ e He)).
      destruct (_update_cache X E (tick (ensure host w))) as [[[]|err] w'];
        simpl in *; [|done].
      destruct Htr as [node ->]. by eexists.
    - rewrite (get_host_attestation_cached host w Hyoung). by eexists. }
  split; [done|].
  unfold backend_passes. rewrite Hmeta. unfold is_trusted. run_M.
  destruct (Hget (KStr (hd EmptyString (split "@" backend)))) as [level Hl].
  destruct (get_host_attestation X CONF E _ w) as [[lv|err] w'];
    simpl in *; [|done].
  by eexists.
Qed.

Lemma update_cache_entry_iso (state host lvl raw : json) (key : pykey)
    (t : Z) (w : world) :
  subscript state "host_name" = Ok host →
  subscript state "trust_lvl" = Ok lvl →
  subscript state "vtime" = Ok raw →
  hashable host = Ok key →
  isotime X raw = Parsed t →
  _update_cache_entry X E state w
  = (Ok tt, World (<[key := Entry lvl t]> (storage_nodes w))
                  (clock_reads w) (polls w)).
Proof.
  intros Hhost Hlvl Hraw Hkey Hiso. unfold _update_cache_entry. run_M.
  by rewrite Hhost, Hlvl, Hraw, Hiso, Hkey.
Qed.

(** X3.  Round trip through a refresh.  When the lookup of [h] triggers a
    refresh and the answer is a list of well-formed tuples whose last tuple
    about [h] reports level [lvl] with an ISO-8601 time [t], the lookup
    returns [lvl], the entry of [h] is [(lvl, t)], exactly one batch query
    was issued, and a further lookup of [h] whose clock reading is at most
    the timeout past [t] is served from the cache. *)
Theorem reported_level_round_trip (h : pykey) (w : world)
    (pre post : list json) (state host lvl raw : json) (t : Z) :
  needs_refresh CONF E h w →
  (∀ hosts, answer X (authority E (length (polls w)) hosts)
            = Ok (JList (pre ++ state :: post)%list)) →
  Forall (well_formed_tuple X) pre →
  Forall (well_formed_tuple X) post →
  Forall (fun s => names h s = false) post →
  subscript state "host_name" = Ok host →
  hashable host = Ok h →
  subscript state "trust_lvl" = Ok lvl →
  subscript state "vtime" = Ok raw →
  isotime X raw = Parsed t →
  ∃ w', get_host_attestation X CONF E h w = (Ok lvl, w') ∧
        storage_nodes w' !! h = Some (Entry lvl t) ∧
        polls w'
        = (polls w ++ [dict_keys (storage_nodes (ensure h w))])%list ∧
        ((clock E (clock_reads w') - t
          ≤ timedelta_seconds (attestation_auth_timeout CONF))%Z →
         get_host_attestation X CONF E h w' = (Ok lvl, tick w')).
Proof.
  intros Hold Hans Hpre Hpost Habs Hhost Hkey Hlvl Hraw Hiso.
  rewrite (get_host_attestation_refresh h w Hold).
  destruct (ensure_frame h w) as (_ & Hp & _).
  pose proof (update_cache_polls X E (tick (ensure h w))) as Hpolls.
  rewrite dict_keys_reset in Hpolls. simpl in Hpolls. rewrite Hp in Hpolls.
  rewrite update_cache_unfold in *. simpl in *. rewrite Hp, Hans in *.
  simpl in *. rewrite for_each_app in *.
  match goal with
  | |- context [for_each (_update_cache_entry X E) pre ?w1] =>
      pose proof (for_each_ok pre w1 Hpre) as Hok1;
      destruct (for_each (_update_cache_entry X E) pre w1) as [[[]|err] w2] eqn:Hw2
  end; [|done].
  simpl in *. unfold bind in *.
  rewrite (update_cache_entry_iso state host lvl raw h t w2
             Hhost Hlvl Hraw Hkey Hiso) in *.
  match goal with
  | |- context [for_each (_update_cache_entry X E) post ?w3] =>
      pose proof (for_each_ok post w3 Hpost) as Hok3;
      destruct (for_each_update_frame X E post w3) as (_ & Hfr & _);
      specialize (Hfr h Habs);
      destruct (for_each (_update_cache_entry X E) post w3) as [[[]|err] w4] eqn:Hw4
  end; [|done].
  simpl in *. rewrite lookup_insert_eq in Hfr. rewrite Hfr.
  exists w4. split; [done|]. split; [done|]. split; [done|].
  intros Hage.
  by apply (get_host_attestation_fresh X CONF E h w4 (Entry lvl t)).
Qed.

(** X4.  The first lookup of a host the cache does not track yet: when
    the clock reads more than the timeout past the epoch it issues exactly
    one batch query, whose host list contains the new host; otherwise it
    answers [unknown] from the entry it has just created, without a query. *)
Theorem first_lookup_of_a_host (host : pykey) (w : world) :
  storage_nodes w !! host = None →
  let w1 := World (<[host := init_entry]> (storage_nodes w))
                  (clock_reads w) (polls w) in
  ((timedelta_seconds (attestation_auth_timeout CONF)
    < clock E (clock_reads w) - epoch)%Z →
   polls (snd (get_host_attestation X CONF E host w))
   = (polls w ++ [dict_keys (storage_nodes w1)])%list ∧
   host ∈ dict_keys (storage_nodes w1)) ∧
  ((clock E (clock_reads w) - epoch
    ≤ timedelta_seconds (attestation_auth_timeout CONF))%Z →
   get_host_attestation X CONF E host w = (Ok (JStr "unknown"), tick w1)).
Proof.
  intros Hnew w1.
  assert (ensure host w = w1) as Hens by (unfold ensure; by rewrite Hnew).
  split.
  - intros Hold. split.
    + rewrite get_host_attestation_refresh
        by (unfold needs_refresh; by rewrite Hnew).
      rewrite snd_read_after, update_cache_polls, dict_keys_reset.
      by rewrite Hens.
    + apply elem_of_dict_keys. simpl. rewrite lookup_insert_eq. by eexists.
  - intros Hyoung.
    rewrite get_host_attestation_cached
      by (unfold needs_refresh; rewrite Hnew; lia).
    by rewrite Hnew, Hens.
Qed.

(** X5.  A refresh that yields no data wipes the cache: when the lookup of
    a host triggers a refresh and the server gives no data, the lookup
    returns [unknown] (also for a host cached as trusted), issues exactly one
    batch query, and leaves every tracked host, however recently verified,
    [unknown] at the epoch. *)
Theorem failed_refresh_wipes_cache (host : pykey) (w : world) :
  needs_refresh CONF E host w →
  (∀ hosts, answer X (authority E (length (polls w)) hosts) = Ok JNull) →
  get_host_attestation X CONF E host w
  = (Ok (JStr "unknown"),
     World (reset (storage_nodes (ensure host w))) (S (clock_reads w))
           (polls w ++ [dict_keys (storage_nodes (ensure host w))])%list) ∧
  (∀ h e, storage_nodes w !! h = Some e →
          storage_nodes (snd (get_host_attestation X CONF E host w)) !! h
          = Some init_entry).
Proof.
  intros Hold Hans.
  destruct (ensure_frame host w) as (Hr & Hp & Hkeep).
  destruct (ensure_tracked host w) as (e0 & He0 & _).
  assert (get_host_attestation X CONF E host w
          = (Ok (JStr "unknown"),
             World (reset (storage_nodes (ensure host w))) (S (clock_reads w))
                   (polls w ++ [dict_keys (storage_nodes (ensure host w))])%list))
    as Heq.
  { rewrite (get_host_attestation_refresh host w Hold).
    rewrite update_cache_unfold. simpl. rewrite Hp, Hans, Hr, dict_keys_reset.
    simpl. unfold reset. by rewrite lookup_fmap, He0. }
  split; [done|].
  intros h e He. rewrite Heq. simpl. unfold reset.
  by rewrite lookup_fmap, (Hkeep h e He).
Qed.

End CacheMore.

(** ** The cache on further sample inputs *)

Lemma tracked_hosts_only_grow_witness :
  is_Some (trusted_filter.storage_nodes
             (snd (trusted_filter.get_host_attestation sample_extern
                     sample_conf (answering 120000000 "<html>") (KStr "h2")
                     (cache_h1 0))) !! KStr "h1").
Proof.
  apply (tracked_hosts_only_grow sample_extern sample_conf
           (answering 120000000 "<html>") (KStr "h2") (KStr "h1") (cache_h1 0)).
  left. eexists. reflexivity.
Defined.

Lemma well_formed_answer_never_raises_witness :
  ∃ decision,
    fst (trusted_filter.backend_passes sample_extern sample_conf
           (answering 90000000 body_h1) "h1@lvm"
           {[ "trust:trusted_host" := "trusted" ]} fresh_cache) = Ok decision.
Proof.
  destruct (well_formed_answer_never_raises sample_extern sample_conf
              (answering 90000000 body_h1) "h1@lvm"
              {[ "trust:trusted_host" := "trusted" ]} "trusted" fresh_cache)
    as [_ Hdecision].
  - intros hosts. exists (JList [state_h1]). split; [reflexivity|].
    right. exists [state_h1]. split; [reflexivity|].
    repeat constructor.
    exists (JStr "h1"), (JStr "trusted"), (JStr "1970-01-01T00:01:00Z"),
           (KStr "h1").
    repeat split; try reflexivity; intros; discriminate.
  - reflexivity.
  - exact Hdecision.
Defined.

Lemma reported_level_round_trip_witness :
  ∃ w', trusted_filter.get_host_attestation sample_extern sample_conf
          (answering 90000000 body_h1) (KStr "h1") fresh_cache
        = (Ok (JStr "trusted"), w') ∧
        trusted_filter.storage_nodes w' !! KStr "h1"
        = Some (trusted_filter.Entry (JStr "trusted") 60000000).
Proof.
  destruct (reported_level_round_trip sample_extern sample_conf
              (answering 90000000 body_h1) (KStr "h1") fresh_cache
              [] [] state_h1 (JStr "h1") (JStr "trusted")
              (JStr "1970-01-01T00:01:00Z") 60000000)
    as (w' & Hget & Hentry & _).
  - reflexivity.
  - intros hosts. reflexivity.
  - constructor.
  - constructor.
  - constructor.
  - reflexivity.
  - reflexivity.
  - reflexivity.
  - reflexivity.
  - reflexivity.
  - exists w'. split; [exact Hget | exact Hentry].
Defined.

Lemma first_lookup_of_a_host_witness :
  trusted_filter.get_host_attestation sample_extern sample_conf
    (unreachable 30000000) (KStr "h1") fresh_cache
  = (Ok (JStr "unknown"),
     trusted_filter.tick
       (trusted_filter.World
          (<[KStr "h1" := trusted_filter.init_entry]> ∅) 0 [])).
Proof.
  destruct (first_lookup_of_a_host sample_extern sample_conf
              (unreachable 30000000) (KStr "h1") fresh_cache)
    as [_ Hcached].
  - reflexivity.
  - apply Hcached. vm_compute. discriminate.
Defined.

Lemma failed_refresh_wipes_cache_witness :
  fst (trusted_filter.get_host_attestation sample_extern sample_conf
         (unreachable 120000000) (KStr "h1") (cache_h1 0))
  = Ok (JStr "unknown").
Proof.
  destruct (failed_refresh_wipes_cache sample_extern sample_conf
              (unreachable 120000000) (KStr "h1") (cache_h1 0))
    as [Hget _].
  - reflexivity.
  - intros hosts. reflexivity.
  - rewrite Hget. reflexivity.
Defined.

(** * The attestation client and the host name *)

(** X6.  [self.verify] is never falsy: certificate verification is never
    switched off.  With [attestation_insecure_ssl] set it is [True]; without
    it, it is the CA file when one is configured and [True] otherwise. *)
Theorem verification_never_disabled (attestation_insecure_ssl : bool)
    (attestation_server_ca_file : option string) :
  truthy (self_verify attestation_insecure_ssl attestation_server_ca_file)
  = true ∧
  self_verify attestation_insecure_ssl attestation_server_ca_file
  ≠ JBool false ∧
  (attestation_insecure_ssl = true →
   self_verify attestation_insecure_ssl attestation_server_ca_file
   = JBool true) ∧
  (∀ path, attestation_insecure_ssl = false →
           attestation_server_ca_file = Some path → path ≠ "" →
           self_verify attestation_insecure_ssl attestation_server_ca_file
           = JStr path) ∧
  (attestation_server_ca_file = None ∨ attestation_server_ca_file = Some "" →
   self_verify attestation_insecure_ssl attestation_server_ca_file
   = JBool true).
Proof.
  unfold self_verify, py_or, py_and, str_opt.
  repeat split.
  - destruct attestation_insecure_ssl; simpl; [done|].
    destruct attestation_server_ca_file as [path|]; simpl; [|done].
    by destruct (negb (String.eqb path "")) eqn:Hp; simpl; rewrite ?Hp.
  - destruct attestation_insecure_ssl; simpl; [done|].
    destruct attestation_server_ca_file as [path|]; simpl; [|done].
    by destruct (negb (String.eqb path "")).
  - by intros ->.
  - intros path -> -> Hpath. simpl.
    apply String.eqb_neq in Hpath. by rewrite Hpath.
  - intros [->| ->]; by destruct attestation_insecure_ssl.
Qed.

Section HostName.

Context (X : extern) (CONF : conf) (E : trusted_filter.env)
        (server : string -> http_result).

Lemma split_no_separator (sep : ascii) (s : string) :
  occurs sep s = false → split sep s = [s].
Proof.
  induction s as [|c s IH]; simpl; [done|].
  intros [Hc Hs]%orb_false_elim. rewrite Hc. by rewrite (IH Hs).
Qed.

Lemma split_at_separator (sep : ascii) (s rest : string) :
  occurs sep s = false →
  split sep (s ++ String sep rest) = s :: split sep rest.
Proof.
  induction s as [|c s IH]; simpl.
  - intros _. by rewrite Ascii.eqb_refl.
  - intros [Hc Hs]%orb_false_elim. rewrite Hc. by rewrite (IH Hs).
Qed.

(** X7.  Both filters look at the part of [backend.host] before the first
    [@] only: for a host name without [@], whatever follows it after an [@]
    (backend, pool) changes neither the host that is attested nor the
    decision nor the state the call leaves. *)
Theorem backend_suffix_ignored (host rest : string)
    (spec : asset_tag_filter.request_spec) (metadata : gmap string string)
    (w : trusted_filter.world) :
  occurs "@" host = false →
  hd EmptyString (split "@" (host ++ String "@" rest)) = host ∧
  trusted_filter.backend_passes X CONF E (host ++ String "@" rest) metadata w
  = trusted_filter.backend_passes X CONF E host metadata w ∧
  asset_tag_filter.backend_passes X CONF server (host ++ String "@" rest)
    spec metadata
  = asset_tag_filter.backend_passes X CONF server host spec metadata.
Proof.
  intros Hhost.
  unfold trusted_filter.backend_passes, asset_tag_filter.backend_passes.
  by rewrite (split_at_separator "@" host rest Hhost),
             (split_no_separator "@" host Hhost).
Qed.

End HostName.

Lemma backend_suffix_ignored_witness :
  hd EmptyString (split "@" "node1@lvm#pool") = "node1".
Proof.
  apply (backend_suffix_ignored sample_extern sample_conf (unreachable 0)
           no_server "node1" "lvm#pool" blank_volume ∅ fresh_cache).
  reflexivity.
Defined.

(** * Further properties of the trust assertion filter *)

Section FilterMore.

Import asset_tag_filter.

Context (X : extern) (CONF : conf) (server : string -> http_result).

Lemma lower_ascii_idem (c : ascii) :
  lower_ascii (lower_ascii c) = lower_ascii c.
Proof. destruct c as [[] [] [] [] [] [] [] []]; reflexivity. Qed.

Lemma lower_idem (s : string) : lower (lower s) = lower s.
Proof.
  induction s as [|c s IH]; simpl; [done|].
  by rewrite lower_ascii_idem, IH.
Qed.

(** The branch on the text [true], as a test. *)
Lemma match_true_text {A : Type} (text : option string) (a b : A) :
  match text with
  | Some "true" => a
  | _ => b
  end = if match text with
           | Some s => String.eqb s "true"
           | None => false
           end then a else b.
Proof.
  destruct text as [s|]; [|done].
  do 4 (destruct s as [|c s]; [done|];
        destruct c as [[] [] [] [] [] [] [] []]; try reflexivity).
  by destruct s.
Qed.

Ltac case_true_text text :=
  rewrite match_true_text;
  destruct text as [?|]; simpl; [destruct (String.eqb _ "true")|].

Lemma read_attributes_sticky (elements : list element)
    (asset_tag : gmap string string) :
  fst (read_attributes elements true asset_tag) = true.
Proof.
  revert asset_tag.
  induction elements as [|el rest IH]; intros asset_tag; simpl; [done|].
  destruct (attrib_Name el) as [name|]; [|done].
  destruct (String.eqb (lower name) "trusted").
  - destruct (AttributeValue el) as [text|]; [|done].
    by case_true_text text.
  - destruct (String.prefix "tag" (lower name)); [|done].
    destruct (AttributeValue el) as [[text|]|]; try done.
    destruct (split "[" (lower name)) as [|? [|inner ?]]; done.
Qed.

Lemma read_attributes_sound (elements : list element) (trust : bool)
    (asset_tag : gmap string string) :
  fst (read_attributes elements trust asset_tag) = true →
  trust = true ∨ Exists says_trusted elements.
Proof.
  revert trust asset_tag.
  induction elements as [|el rest IH]; intros trust asset_tag; simpl.
  - by left.
  - destruct (attrib_Name el) as [name|] eqn:Hname; [|by left].
    destruct (String.eqb (lower name) "trusted") eqn:Hn.
    + destruct (AttributeValue el) as [text|] eqn:Hval; [|by left].
      rewrite match_true_text.
      destruct text as [s|]; simpl.
      * destruct (String.eqb s "true") eqn:Hs.
        -- intros _. right. apply Exists_cons_hd. split.
           ++ exists name. split; [done|]. by apply String.eqb_eq.
           ++ apply String.eqb_eq in Hs. by rewrite Hval, Hs.
        -- intros [?|?]%IH; [by left | right; by apply Exists_cons_tl].
      * intros [?|?]%IH; [by left | right; by apply Exists_cons_tl].
    + destruct (String.prefix "tag" (lower name)).
      * destruct (AttributeValue el) as [[text|]|]; try (by left).
        destruct (split "[" (lower name)) as [|? [|inner ?]]; try (by left).
        intros [?|?]%IH; [by left | right; by apply Exists_cons_tl].
      * intros [?|?]%IH; [by left | right; by apply Exists_cons_tl].
Qed.

Lemma read_attributes_readable (el : element) (rest : list element)
    (trust : bool) (asset_tag : gmap string string) :
  readable el = true →
  ∃ trust' asset_tag',
    read_attributes (el :: rest) trust asset_tag
    = read_attributes rest trust' asset_tag' ∧
    (trust = true → trust' = true).
Proof.
  unfold readable. simpl.
  destruct (attrib_Name el) as [name|]; [|done].
  destruct (String.eqb (lower name) "trusted").
  - destruct (AttributeValue el) as [text|]; [|done]. intros _.
    case_true_text text; by eexists _, _.
  - destruct (String.prefix "tag" (lower name)); [|by eexists _, _].
    destruct (AttributeValue el) as [[text|]|]; try done.
    destruct (split "[" (lower name)) as [|? [|inner ?]]; try done.
    by eexists _, _.
Qed.

Lemma read_attributes_complete (pre post : list element) (el : element)
    (trust : bool) (asset_tag : gmap string string) :
  Forall (fun e => readable e = true) pre →
  says_trusted el →
  fst (read_attributes (pre ++ el :: post)%list trust asset_tag) = true.
Proof.
  intros Hpre [(name & Hname & Hlower) Hval]. revert trust asset_tag.
  induction Hpre as [|e pre He _ IH]; intros trust asset_tag.
  - simpl. rewrite Hname, Hlower, Hval. simpl. apply read_attributes_sticky.
  - destruct (read_attributes_readable e (pre ++ el :: post)%list trust
                asset_tag He) as (trust' & asset_tag' & Heq & _).
    change ((e :: pre) ++ el :: post)%list
      with (e :: (pre ++ el :: post))%list.
    rewrite Heq. apply IH.
Qed.

(** X8.  The assertion establishes trust only through an attribute named
    [trusted] (in any case) whose value is exactly the text [true]; and once
    such an attribute has been read, behind attributes the loop gets past,
    nothing that follows it in the assertion takes the trust back. *)
Theorem trust_requires_true_attribute (saml_data : option string) :
  (fst (verify_and_parse_saml X saml_data) = true →
   ∃ text elements,
     saml_data = Some text ∧ saml_attributes X text = Some elements ∧
     Exists says_trusted elements) ∧
  (∀ text pre el post,
     saml_data = Some text →
     match loads X text with Some v => truthy v | None => false end = false →
     saml_attributes X text = Some (pre ++ el :: post)%list →
     Forall (fun e => readable e = true) pre →
     says_trusted el →
     fst (verify_and_parse_saml X saml_data) = true).
Proof.
  unfold verify_and_parse_saml. split.
  - destruct saml_data as [text|]; [|done].
    assert (fst match saml_attributes X text with
                | Some elements => read_attributes elements false ∅
                | None => (false, ∅)
                end = true →
            ∃ text0 elements,
              Some text = Some text0 ∧
              saml_attributes X text0 = Some elements ∧
              Exists says_trusted elements) as Hxml.
    { destruct (saml_attributes X text) as [elements|] eqn:Hparse; [|done].
      intros [?|?]%read_attributes_sound; [done|]. by exists text, elements. }
    destruct (loads X text) as [json_body|]; [|done].
    by destruct (truthy json_body).
  - intros text pre el post -> -> -> Hpre Hel.
    by apply read_attributes_complete.
Qed.

Lemma read_attributes_lowercase (elements : list element) (trust : bool)
    (asset_tag : gmap string string) :
  (∀ k v, asset_tag !! k = Some v → lower k = k ∧ lower v = v) →
  ∀ k v, snd (read_attributes elements trust asset_tag) !! k = Some v →
         lower k = k ∧ lower v = v.
Proof.
  revert trust asset_tag.
  induction elements as [|el rest IH]; intros trust asset_tag Hlow; simpl;
    [done|].
  destruct (attrib_Name el) as [name|]; [|done].
  destruct (String.eqb (lower name) "trusted").
  - destruct (AttributeValue el) as [text|]; [|done].
    case_true_text text; by apply IH.
  - destruct (String.prefix "tag" (lower name)); [|by apply IH].
    destruct (AttributeValue el) as [[text|]|]; try done.
    destruct (split "[" (lower name)) as [|? [|inner ?]]; try done.
    apply IH. intros k v.
    destruct (decide (lower (hd EmptyString (split "]" inner)) = k))
      as [<-|Hne].
    + rewrite lookup_insert_eq. intros [= <-]. by rewrite !lower_idem.
    + rewrite lookup_insert_ne by done. apply Hlow.
Qed.

Lemma is_upper_lower_ascii (c : ascii) :
  is_upper_ascii (lower_ascii c) = false.
Proof. destruct c as [[] [] [] [] [] [] [] []]; reflexivity. Qed.

Lemma has_upper_lower (s : string) : has_upper (lower s) = false.
Proof.
  induction s as [|c s IH]; simpl; [done|].
  by rewrite is_upper_lower_ascii, IH.
Qed.

(** X9.  No tag name and no tag value that [verify_and_parse_saml] returns
    has one of the letters A-Z in it. *)
Theorem saml_tags_are_lowercase (saml_data : option string) (k v : string) :
  snd (verify_and_parse_saml X saml_data) !! k = Some v →
  has_upper k = false ∧ has_upper v = false.
Proof.
  assert (∀ k' v', (∅ : gmap string string) !! k' = Some v' →
                   lower k' = k' ∧ lower v' = v') as Hempty.
  { intros k' v'. by rewrite lookup_empty. }
  assert (snd (verify_and_parse_saml X saml_data) !! k = Some v →
          lower k = k ∧ lower v = v) as Hlow.
  { unfold verify_and_parse_saml.
    destruct saml_data as [text|]; [|apply Hempty].
    destruct (match loads X text with
              | Some json_body => truthy json_body
              | None => false
              end); [apply Hempty|].
    destruct (saml_attributes X text) as [elements|]; [|apply Hempty].
    by apply read_attributes_lowercase. }
  intros [Hk Hv]%Hlow. rewrite <- Hk, <- Hv.
  by rewrite !has_upper_lower.
Qed.

Lemma prefix_spec (a s : string) :
  String.prefix a s = true ↔ ∃ b, s = a ++ b.
Proof.
  revert s. induction a as [|c a IH]; intros s.
  - split; [intros _; by exists s | by destruct s].
  - destruct s as [|c' s]; simpl.
    + split; [done | by intros [b ?]].
    + destruct (ascii_dec c c') as [->|Hne].
      * rewrite IH. split.
        -- intros [b ->]. by exists b.
        -- intros [b [= ->]]. by exists b.
      * split; [done|]. intros [b [= ? ?]]. by destruct Hne.
Qed.

Lemma contains_str_spec (sub s : string) :
  contains_str sub s = true ↔ ∃ a b, s = a ++ sub ++ b.
Proof.
  induction s as [|c s IH].
  - change (contains_str sub EmptyString)
      with (String.prefix sub EmptyString || false).
    rewrite orb_false_r, prefix_spec. split.
    + intros [b ->]. by exists EmptyString, b.
    + intros ([|c a] & b & Heq); [by exists b | done].
  - change (contains_str sub (String c s))
      with (String.prefix sub (String c s) || contains_str sub s).
    rewrite orb_true_iff, prefix_spec, IH. split.
    + intros [[b ->]|(a & b & ->)].
      * by exists EmptyString, b.
      * by exists (String c a), b.
    + intros ([|c' a] & b & Heq).
      * left. by exists b.
      * right. injection Heq as -> ->. by exists a, b.
Qed.

(** X10.  A selection item whose accepted value is a string, not a list, is
    judged by substring containment: a selection that is the single item
    [k: acc] is satisfied exactly by the hosts whose tag [k] is a substring
    of [acc]. *)
Theorem string_value_accepts_substrings (host_tags : gmap string string)
    (s k acc : string) :
  literal_eval X (lower s) = Some (LDict [(LStr k, LStr acc)]) →
  (verify_asset_tag X host_tags s = true ↔
   ∃ value a b, host_tags !! k = Some value ∧ acc = a ++ value ++ b).
Proof.
  intros Hsel.
  rewrite (verify_asset_tag_forallb X host_tags s _ Hsel).
  simpl. rewrite andb_true_r. unfold item_ok. simpl.
  destruct (host_tags !! k) as [value|].
  - destruct (contains_str value acc) eqn:Hc.
    + split; [|done]. intros _.
      apply contains_str_spec in Hc as (a & b & ->). by exists value, a, b.
    + split; [done|]. intros (value' & a & b & [= <-] & ->).
      assert (contains_str value (a ++ value ++ b) = true) as Hyes.
      { apply contains_str_spec. by exists a, b. }
      congruence.
  - split; [done|]. by intros (value & a & b & ? & _).
Qed.

Lemma do_attestation_value (hostname blob : string) :
  attestation_auth_blob CONF = Some blob →
  do_attestation CONF server hostname =
  Ok match server hostname with
     | HttpResponse status_code data =>
         if success_code status_code then Some data else None
     | TransportFailure => None
     end.
Proof.
  intros Hblob. unfold do_attestation, _request, _do_request. rewrite Hblob.
  destruct (server hostname) as [|status_code data]; simpl; [done|].
  destruct (success_code status_code); simpl; [done|].
  by destruct (status_code =? codes_OK)%Z.
Qed.

(** X11.  The two entry points agree.  For a request that carries [trust],
    when the auth blob is configured the filter's decision is what
    [is_trusted] answers for the same host and the request's [asset_tags];
    when it is not configured, [backend_passes] raises [TypeError] while
    [is_trusted] answers [False] for every host and selection. *)
Theorem filter_agrees_with_is_trusted (host : string) (spec : request_spec)
    (metadata : gmap string string) (t : string) :
  metadata !! "trust" = Some t →
  (is_Some (attestation_auth_blob CONF) →
   fst (backend_passes X CONF server host spec metadata)
   = Ok (is_trusted X CONF server (hd EmptyString (split "@" host))
           (metadata !! "asset_tags"))) ∧
  (attestation_auth_blob CONF = None →
   fst (backend_passes X CONF server host spec metadata) = Raise TypeError ∧
   ∀ hostname tags, is_trusted X CONF server hostname tags = false).
Proof.
  intros Ht. rewrite (backend_passes_trust X CONF server host spec metadata t Ht).
  split.
  - intros Hblob. unfold is_trusted.
    destruct (do_attestation_built CONF server
                (hd EmptyString (split "@" host)) Hblob) as [host_data ->].
    destruct (verify_and_parse_saml X host_data) as [trust asset_tag].
    destruct trust; simpl; [|done].
    destruct (metadata !! "asset_tags") as [tags|]; simpl; [|done].
    by destruct (String.eqb tags "None").
  - intros Hnone.
    assert (∀ hostname, do_attestation CONF server hostname = Raise TypeError)
      as Hraise.
    { intros hostname. unfold do_attestation, _request. by rewrite Hnone. }
    split.
    + by rewrite Hraise.
    + intros hostname tags. unfold is_trusted. by rewrite Hraise.
Qed.

(** X12.  Fail closed.  For a request that carries [trust], with the auth
    blob configured, the filter rejects and leaves the metadata as it is
    whenever the attestation server cannot be reached, answers with another
    status than 200, 201, 202 or 204, answers with a JSON document that is
    truthy, or answers with a text that is no XML document. *)
Theorem unattested_host_is_rejected (host : string) (spec : request_spec)
    (metadata : gmap string string) (t : string) :
  metadata !! "trust" = Some t →
  is_Some (attestation_auth_blob CONF) →
  (server (hd EmptyString (split "@" host)) = TransportFailure ∨
   ∃ status_code text,
     server (hd EmptyString (split "@" host))
     = HttpResponse status_code text ∧
     (success_code status_code = false ∨
      (∃ v, loads X text = Some v ∧ truthy v = true) ∨
      saml_attributes X text = None)) →
  backend_passes X CONF server host spec metadata = (Ok false, metadata).
Proof.
  intros Ht [blob Hblob] Hserver.
  rewrite (backend_passes_trust X CONF server host spec metadata t Ht).
  rewrite (do_attestation_value _ blob Hblob). simpl.
  assert (fst (verify_and_parse_saml X
                 match server (hd EmptyString (split "@" host)) with
                 | HttpResponse status_code data =>
                     if success_code status_code then Some data else None
                 | TransportFailure => None
                 end) = false) as Hno.
  { destruct Hserver as [->|(c & text & -> & Hwhy)]; [done|].
    destruct (success_code c); [|done].
    unfold verify_and_parse_saml.
    destruct Hwhy as [?|[(v & -> & ->)|Hxml]]; [done|done|].
    rewrite Hxml. destruct (loads X text) as [v|]; [|done].
    by destruct (truthy v). }
  destruct (verify_and_parse_saml X _) as [trust asset_tag].
  simpl in Hno. by rewrite Hno.
Qed.

End FilterMore.

(** ** The trust assertion filter on further sample inputs *)

Lemma trust_requires_true_attribute_witness :
  fst (asset_tag_filter.verify_and_parse_saml sample_extern (Some saml_h1))
  = true.
Proof.
  destruct (trust_requires_true_attribute sample_extern (Some saml_h1))
    as [_ Hcomplete].
  apply (Hcomplete saml_h1 []
           (Element (Some "Trusted") (Some (Some "true")))
           [Element (Some "TAG[Env]") (Some (Some "Prod"))]).
  - reflexivity.
  - reflexivity.
  - reflexivity.
  - constructor.
  - split; [|reflexivity]. exists "Trusted". split; reflexivity.
Defined.

Lemma saml_tags_are_lowercase_witness :
  has_upper "env" = false ∧ has_upper "prod" = false.
Proof.
  apply (saml_tags_are_lowercase sample_extern (Some saml_h1) "env" "prod").
  reflexivity.
Defined.

Lemma string_value_accepts_substrings_witness :
  asset_tag_filter.verify_asset_tag sample_extern_str {[ "env" := "prod" ]}
    "{'env': 'production'}" = true.
Proof.
  apply (string_value_accepts_substrings sample_extern_str
           {[ "env" := "prod" ]} "{'env': 'production'}" "env" "production").
  - reflexivity.
  - exists "prod", EmptyString, "uction". split; reflexivity.
Defined.

Lemma filter_agrees_with_is_trusted_witness :
  fst (asset_tag_filter.backend_passes sample_extern conf_without_blob
         saml_server "h1@lvm" blank_volume {[ "trust" := "trusted" ]})
  = Raise TypeError.
Proof.
  destruct (filter_agrees_with_is_trusted sample_extern conf_without_blob
              saml_server "h1@lvm" blank_volume {[ "trust" := "trusted" ]}
              "trusted") as [_ Hnone].
  - reflexivity.
  - apply Hnone. reflexivity.
Defined.

Lemma unattested_host_is_rejected_witness :
  asset_tag_filter.backend_passes sample_extern sample_conf no_server
    "h1@lvm" blank_volume {[ "trust" := "trusted" ]}
  = (Ok false, {[ "trust" := "trusted" ]}).
Proof.
  apply (unattested_host_is_rejected sample_extern sample_conf no_server
           "h1@lvm" blank_volume {[ "trust" := "trusted" ]} "trusted").
  - reflexivity.
  - eexists. reflexivity.
  - left. reflexivity.
Defined.

(** * The batch client and the reading loop *)

Section ClientFacts.

Context (X : extern) (E : trusted_filter.env).

(** X13.  [do_attestation] of trusted_filter.py issues exactly one request
    and leaves the cache table alone; the only exception it lets escape is
    [AttributeError], and it does so exactly when the server answers with
    status 200, 201, 202 or 204 and a body that is neither the JSON [null]
    nor a JSON object (a body that is no JSON at all included). *)
Theorem client_raises_on_bad_body_only (hosts : list pykey)
    (w : trusted_filter.world) :
  trusted_filter.polls (snd (trusted_filter.do_attestation X E hosts w))
  = (trusted_filter.polls w ++ [hosts])%list ∧
  trusted_filter.storage_nodes (snd (trusted_filter.do_attestation X E hosts w))
  = trusted_filter.storage_nodes w ∧
  (∀ err, fst (trusted_filter.do_attestation X E hosts w) = Raise err →
          err = AttributeError) ∧
  (fst (trusted_filter.do_attestation X E hosts w) = Raise AttributeError ↔
   ∃ status_code text,
     trusted_filter.authority E (length (trusted_filter.polls w)) hosts
     = HttpResponse status_code text ∧
     success_code status_code = true ∧
     match loads X text with
     | Some JNull | Some (JObj _) => False
     | _ => True
     end).
Proof.
  rewrite do_attestation_spec. simpl. unfold trusted_filter.answer.
  split; [done|]. split; [done|].
  destruct (trusted_filter.authority E _ hosts) as [|status_code text].
  - split; [done|]. split; [done|]. by intros (? & ? & ? & _).
  - destruct (success_code status_code) eqn:Hcode.
    + destruct (loads X text) as [v|] eqn:Hloads.
      * destruct v; (split; [by intros err [= <-]|]);
          (split; [intros Hr; try done; exists status_code, text;
                   by rewrite Hloads
                  | intros (c & text' & [= <- <-] & _ & Hbody);
                    rewrite Hloads in Hbody; done]).
      * split; [by intros err [= <-]|]. split; [|done].
        intros _. exists status_code, text. by rewrite Hloads.
    + split; [done|]. split; [done|].
      intros (c & text' & [= <- <-] & Hc & _). congruence.
Qed.

(** X14.  The reading loop of [verify_and_parse_saml] stops at the first
    attribute it cannot read (no [Name], no value element, a tag without
    text or without a bracket in its name) and returns what it has read up
    to there: every attribute behind it is ignored. *)
Theorem unreadable_attribute_stops_reading (pre post : list element)
    (el : element) (trust : bool) (asset_tag : gmap string string) :
  readable el = false →
  asset_tag_filter.read_attributes (pre ++ el :: post)%list trust asset_tag
  = asset_tag_filter.read_attributes pre trust asset_tag.
Proof.
  intros Hel. revert trust asset_tag.
  induction pre as [|e pre IH]; intros trust asset_tag.
  - unfold readable in Hel. simpl.
    destruct (attrib_Name el) as [name|]; [|done].
    destruct (String.eqb (lower name) "trusted").
    + by destruct (AttributeValue el).
    + destruct (String.prefix "tag" (lower name)); [|done].
      destruct (AttributeValue el) as [[text|]|]; try done.
      by destruct (split "[" (lower name)) as [|? [|inner ?]].
  - change ((e :: pre) ++ el :: post)%list
      with (e :: (pre ++ el :: post))%list.
    simpl.
    destruct (attrib_Name e) as [name|]; [|done].
    destruct (String.eqb (lower name) "trusted").
    + destruct (AttributeValue e) as [text|]; [|done].
      rewrite !match_true_text.
      destruct (match text with
                | Some s => String.eqb s "true"
                | None => false
                end); apply IH.
    + destruct (String.prefix "tag" (lower name)); [|apply IH].
      destruct (AttributeValue e) as [[text|]|]; try done.
      destruct (split "[" (lower name)) as [|? [|inner ?]]; try done;
        apply IH.
Qed.

End ClientFacts.

Lemma unreadable_attribute_stops_reading_witness :
  asset_tag_filter.read_attributes
    [Element None None; Element (Some "Trusted") (Some (Some "true"))]
    false ∅
  = (false, ∅).
Proof.
  exact (unreadable_attribute_stops_reading []
           [Element (Some "Trusted") (Some (Some "true"))]
           (Element None None) false ∅ eq_refl).
Defined.
